(** * whs-schedule: the schedule resolution engine of [script.js]

    A shallow embedding of the decision logic of [script.js] (day
    classification, A/B rotation, bell-table selection, period matching,
    event filtering and the calendar importer), and the properties of it
    that the specification states.

    Modelling conventions.
    - A JavaScript [Date] is its time value: an integer number of
      milliseconds since the epoch (UTC), a [Z].
    - The zone of the browser appears twice.  What the script computes
      within the day of [now] uses the offset [tz] in force on that day, in
      milliseconds (local wall time = UTC + [tz]).  The walk of [getABDay]
      over the year uses the zone itself, a [Zone]: its offset at every
      instant and its reading of local times, with the changes of offset
      that daylight saving brings.
    - The globals [scheduleData], [calendarABDays], [allCalendarEvents] and
      [debugNow] are the fields of a record [World] that every function
      reads, together with the reading of the wall clock. *)

From Stdlib Require Import ZArith List String Ascii Bool Lia Permutation Sorted DecimalString.
From stdpp Require Import base gmap strings list.

Local Open Scope string_scope.
Local Open Scope list_scope.
Local Open Scope Z_scope.

(** ** Time values *)

Definition msPerSecond : Z := 1000.
Definition msPerMinute : Z := 60000.
Definition msPerHour : Z := 3600000.
Definition msPerDay : Z := 86400000.

(** Local wall-clock milliseconds, local day number (days since
    1970-01-01 in the local calendar) and local time of day. *)
Definition localTime (tz d : Z) : Z := d + tz.
Definition localDay (tz d : Z) : Z := localTime tz d / msPerDay.
Definition timeOfDay (tz d : Z) : Z := localTime tz d mod msPerDay.

(** [Date.prototype.getDay]: 0 is Sunday; 1970-01-01 was a Thursday. *)
Definition getDay (tz d : Z) : Z := (localDay tz d + 4) mod 7.

(** [dayjs(d).startOf('day')]: local midnight of the day of [d]. *)
Definition startOfDay (tz d : Z) : Z := localDay tz d * msPerDay - tz.

(** [dayjs(d).endOf('day')]: the last millisecond of the local day. *)
Definition endOfDay (tz d : Z) : Z := startOfDay tz d + msPerDay - 1.

(** [d.setHours(h, m, 0, 0)]: same local day, the given time of day.
    Hours and minutes outside their usual range carry over, as in
    JavaScript. *)
Definition setHours (tz d h m : Z) : Z :=
  startOfDay tz d + h * msPerHour + m * msPerMinute.

(** ** The zone over the year *)

Definition quarterDay : Z := 21600000.
Definition halfDay : Z := 43200000.

(** The offsets of a zone stay within six hours of its first one. *)
Definition boundedOffsets (initial : Z) (transitions : list (Z * Z)) : bool :=
  forallb (fun tr => Z.abs (snd tr - initial) <=? quarterDay) transitions.

(** A zone: the offset in force before its first transition, and its
    transitions in order of time, each the instant of the change and the
    offset in force from then on. *)
Record Zone : Type := mkZone {
  zone_initial : Z;
  zone_transitions : list (Z * Z);
  zone_bounded : boundedOffsets zone_initial zone_transitions = true
}.

(** The offset in force at an instant: that of the last transition at or
    before it. *)
Fixpoint offsetFrom (off : Z) (transitions : list (Z * Z)) (t : Z) : Z :=
  match transitions with
  | [] => off
  | (at_, after) :: rest => offsetFrom (if at_ <=? t then after else off) rest t
  end.

Definition offsetAt (z : Zone) (t : Z) : Z :=
  offsetFrom (zone_initial z) (zone_transitions z) t.

(** The offset under which a local time is read.  A local time that a
    transition skips or repeats is read under the offset before the
    transition, as ECMAScript has it: the offset after a transition applies
    from the local time that is past the transition under both offsets. *)
Fixpoint localOffsetFrom (before off : Z) (transitions : list (Z * Z)) (l : Z) : Z :=
  match transitions with
  | [] => off
  | (at_, after) :: rest =>
      localOffsetFrom after
        (if at_ + Z.max before after <=? l then after else off) rest l
  end.

Definition offsetOfLocal (z : Zone) (l : Z) : Z :=
  localOffsetFrom (zone_initial z) (zone_initial z) (zone_transitions z) l.

(** The instant of a local time. *)
Definition toUTC (z : Zone) (l : Z) : Z := l - offsetOfLocal z l.

(** [cur.setDate(cur.getDate() + 1)]: the local time of [cur] moved to the
    next calendar date, same time of day, and read back in the zone. *)
Definition nextDate (z : Zone) (cur : Z) : Z :=
  toUTC z (cur + offsetAt z cur + msPerDay).

(** A zone without transitions. *)
Definition fixedZone (tz : Z) : Zone :=
  {| zone_initial := tz; zone_transitions := []; zone_bounded := eq_refl |}.

(** America/Denver from the summer of 2025: daylight time, six hours
    behind UTC, until 2025-11-02 08:00 UTC, standard time, seven hours
    behind, until 2026-03-08 09:00 UTC, and daylight time again until
    2026-11-01 08:00 UTC. *)
Definition denverZone : Zone :=
  {| zone_initial := -21600000;
     zone_transitions :=
       [ (1762070400000, -25200000);
         (1772960400000, -21600000);
         (1793520000000, -25200000) ];
     zone_bounded := eq_refl |}.

(** ** Calendar dates and their text *)

(** The civil date (year, month 1..12, day 1..31) of a day number, in the
    proleptic Gregorian calendar that [Date] uses. *)
Definition civil_from_days (days : Z) : Z * Z * Z :=
  let z := days + 719468 in
  let era := z / 146097 in
  let doe := z - era * 146097 in
  let yoe := (doe - doe / 1460 + doe / 36524 - doe / 146096) / 365 in
  let doy := doe - (365 * yoe + yoe / 4 - yoe / 100) in
  let mp := (5 * doy + 2) / 153 in
  let d := doy - (153 * mp + 2) / 5 + 1 in
  let m := if mp <? 10 then mp + 3 else mp - 9 in
  let y := yoe + era * 400 + (if m <=? 2 then 1 else 0) in
  (y, m, d).

(** [String(n)] for an integer [n]. *)
Definition string_of_Z (n : Z) : string := NilZero.string_of_int (Z.to_int n).

(** [String.prototype.padStart(n, '0')]. *)
Definition padStart0 (n : nat) (s : string) : string :=
  String.concat "" (repeat "0" (n - String.length s)) +:+ s.

(** [dayjs(d).format('YYYY-MM-DD')] for a day number: the year padded to
    four characters, month and day to two. *)
Definition format_YYYY_MM_DD (days : Z) : string :=
  let '(y, m, d) := civil_from_days days in
  padStart0 4 (string_of_Z y) +:+ "-" +:+ padStart0 2 (string_of_Z m)
    +:+ "-" +:+ padStart0 2 (string_of_Z d).

(** [ymd]: the local calendar date of [d] as text. *)
Definition ymd (tz d : Z) : string := format_YYYY_MM_DD (localDay tz d).

(** The largest time value of a valid [Date]. *)
Definition maxTimeValue : Z := 8640000000000000.

(** The year of [Date.prototype.toISOString]: four digits from 0 to 9999,
    otherwise a sign and six digits. *)
Definition isoYear (y : Z) : string :=
  if (0 <=? y) && (y <=? 9999) then padStart0 4 (string_of_Z y)
  else (if y <? 0 then "-" else "+") +:+ padStart0 6 (string_of_Z (Z.abs y)).

(** [d.toISOString()]: the UTC date and time; a [RangeError] ([None]) for
    a time value out of range. *)
Definition toISOString (d : Z) : option string :=
  if (- maxTimeValue <=? d) && (d <=? maxTimeValue) then
    let '(y, m, dd) := civil_from_days (d / msPerDay) in
    let t := d mod msPerDay in
    Some (isoYear y +:+ "-" +:+ padStart0 2 (string_of_Z m)
            +:+ "-" +:+ padStart0 2 (string_of_Z dd)
            +:+ "T" +:+ padStart0 2 (string_of_Z (t / msPerHour))
            +:+ ":" +:+ padStart0 2 (string_of_Z (t mod msPerHour / msPerMinute))
            +:+ ":" +:+ padStart0 2 (string_of_Z (t mod msPerMinute / msPerSecond))
            +:+ "." +:+ padStart0 3 (string_of_Z (t mod msPerSecond)) +:+ "Z")
  else None.

(** [s.slice(0, 10)]. *)
Definition slice_0_10 (s : string) : string := String.substring 0 10 s.

(** [dayjs(d).format('dddd')]: the English name of the local weekday. *)
Definition weekdayNames : list string :=
  ["Sunday"; "Monday"; "Tuesday"; "Wednesday"; "Thursday"; "Friday"; "Saturday"].

Definition format_dddd (tz d : Z) : string :=
  nth (Z.to_nat (getDay tz d)) weekdayNames "".

(** ** Text of the configuration *)

(** [s.split(':')]: the pieces between the separators, at least one. *)
Fixpoint split (sep : ascii) (s : string) : list string :=
  match s with
  | EmptyString => [EmptyString]
  | String c rest =>
      if Ascii.eqb c sep then EmptyString :: split sep rest
      else match split sep rest with
           | [] => [String c EmptyString]
           | p :: ps => String c p :: ps
           end
  end.

Definition isDigit (c : ascii) : bool :=
  (48 <=? Z.of_N (N_of_ascii c)) && (Z.of_N (N_of_ascii c) <=? 57).

Fixpoint digitsValue (s : string) (acc : Z) : option Z :=
  match s with
  | EmptyString => Some acc
  | String c rest =>
      if isDigit c then digitsValue rest (10 * acc + (Z.of_N (N_of_ascii c) - 48))
      else None
  end.

(** [Number(s)] on the text of a time field: the value of a run of
    decimal digits, 0 for the empty text, and [NaN] ([None]) otherwise.
    (JavaScript also reads signs, blanks, fractions and exponents; the
    model covers the digit runs of ["HH:MM"] fields.) *)
Definition Number (s : string) : option Z := digitsValue s 0.

(** ** Data model *)

(** The rotation labels ['A'] and ['B']. *)
Inductive rotation : Type := RotA | RotB.

Global Instance rotation_eq_dec : EqDecision rotation.
Proof. solve_decision. Defined.

(** A bell row's [code]: one label, or an array of labels. *)
Inductive Code : Type :=
  | CodeLabel (label : string)
  | CodeArray (arr : list string).

Record BellRow : Type := mkBellRow {
  row_start : string;
  row_end : string;
  row_code : Code
}.

Record ClassInfo : Type := mkClassInfo {
  period : string;
  name : string;
  room : string;
  teacher : string
}.

(** [scheduleData], with [schoolYear.start] and [schoolYear.end] as the
    time values [new Date(...)] reads from them. *)
Record ScheduleData : Type := mkScheduleData {
  schoolYear_start : Z;
  schoolYear_end : Z;
  offDays : list string;
  schedules_regular : list BellRow;
  schedules_wednesday : list BellRow;
  classes_A : list ClassInfo;
  classes_B : list ClassInfo
}.

(** An [ICAL.Time] as the script uses it: the instant it denotes, in whole
    seconds since the epoch, and whether it has date-only precision. *)
Record ICALTime : Type := mkICALTime {
  unixTime : Z;
  isDate : bool
}.

(** [t.toJSDate()]. *)
Definition toJSDate (t : ICALTime) : Z := unixTime t * msPerSecond.

(** An entry of [allEvents]; [summary] is [null] ([None]) for a component
    without one. *)
Record CalEvent : Type := mkCalEvent {
  summary : option string;
  startDate : ICALTime;
  endDate : ICALTime;
  location : string;
  isAllDay : bool
}.

(** The globals of the script and the browser around it: the loaded
    configuration, the imported calendar, the simulated instant, the
    reading of the wall clock that [getNow] takes when nothing is
    simulated, the offset of the browser's zone in force on the day of
    [now], and the zone itself. *)
Record World : Type := mkWorld {
  scheduleData : option ScheduleData;
  calendarABDays : gmap string rotation;
  allCalendarEvents : list CalEvent;
  debugNow : option Z;
  wallClock : Z;
  zoneOffset : Z;
  zone : Zone
}.

(** ** Time helpers of the script *)

Definition getNow (w : World) : Z :=
  match debugNow w with
  | Some d => d
  | None => wallClock w
  end.

(** [parseTime]: today at the given ["HH:MM"]; an invalid date ([None])
    when a field is missing or not a number. *)
Definition parseTime (w : World) (hm : string) : option Z :=
  let d := getNow w in
  match map Number (split ":" hm) with
  | Some h :: Some m :: _ => Some (setHours (zoneOffset w) d h m)
  | _ => None
  end.

(** [a >= b] and [a <= b] between a date and a possibly invalid date: a
    comparison with an invalid date is false. *)
Definition dateGe (a : Z) (b : option Z) : bool :=
  match b with Some b => b <=? a | None => false end.

Definition dateLe (a : Z) (b : option Z) : bool :=
  match b with Some b => a <=? b | None => false end.

Definition dateLt (a : Z) (b : option Z) : bool :=
  match b with Some b => a <? b | None => false end.

(** ** Day classifier *)

Definition isWeekend (tz d : Z) : bool :=
  let x := getDay tz d in (x =? 0) || (x =? 6).

Definition isSchoolDay (w : World) (d : Z) : bool :=
  match scheduleData w with
  | None => false
  | Some sd =>
      let schoolStart := schoolYear_start sd in
      let schoolEnd := schoolYear_end sd in
      let offDays : gset string := list_to_set (offDays sd) in
      (schoolStart <=? d) && (d <=? schoolEnd)
        && negb (isWeekend (zoneOffset w) d)
        && negb (bool_decide (ymd (zoneOffset w) d ∈ offDays))
  end.

(** The world read under another offset. *)
Definition withOffset (w : World) (tz : Z) : World :=
  {| scheduleData := scheduleData w;
     calendarABDays := calendarABDays w;
     allCalendarEvents := allCalendarEvents w;
     debugNow := debugNow w;
     wallClock := wallClock w;
     zoneOffset := tz;
     zone := zone w |}.

(** [isSchoolDay(cur)] at an instant of the walk: the weekday and the date
    of [cur] are read under the offset in force at [cur]. *)
Definition isSchoolDayOnWalk (w : World) (cur : Z) : bool :=
  isSchoolDay (withOffset w (offsetAt (zone w) cur)) cur.

(** The counting loop of [getABDay]: [None] when the fuel runs out before
    the loop condition fails. *)
Fixpoint countLoop (fuel : nat) (w : World) (cur d count : Z) : option Z :=
  if cur <=? d then
    match fuel with
    | O => None
    | S fuel' =>
        countLoop fuel' w (nextDate (zone w) cur) d
          (if isSchoolDayOnWalk w cur then count + 1 else count)
    end
  else Some count.

(** [getABDay] with the loop bounded by [fuel]; the inner [None] is
    [null]. *)
Definition getABDay_fuel (fuel : nat) (w : World) : option (option rotation) :=
  let d := getNow w in
  if negb (isSchoolDay w d) then Some None
  else
    match scheduleData w with
    | None => Some None
    | Some sd =>
        let dateStr := ymd (zoneOffset w) d in
        match calendarABDays w !! dateStr with
        | Some r => Some (Some r)
        | None =>
            match countLoop fuel w (schoolYear_start sd) d 0 with
            | None => None
            | Some count => Some (Some (if count mod 2 =? 1 then RotA else RotB))
            end
        end
    end.

(** A bound on the number of iterations the loop makes from [start] up to
    [d]: every step is at least half a day long. *)
Definition walkLength (start d : Z) : nat :=
  if start <=? d then S (Z.to_nat ((d - start) / halfDay)) else O.

(** [getABDay]: the loop run for as long as it takes
    ([getABDay_fuel_enough] below). *)
Definition getABDay (w : World) : option rotation :=
  match scheduleData w with
  | None => None
  | Some sd =>
      match getABDay_fuel (walkLength (schoolYear_start sd) (getNow w)) w with
      | Some r => r
      | None => None
      end
  end.

(** ** Schedule selector *)

Definition isWednesday (w : World) : bool :=
  String.eqb (format_dddd (zoneOffset w) (getNow w)) "Wednesday".

Definition todaySchedule (w : World) : list BellRow :=
  match scheduleData w with
  | None => []
  | Some sd => if isWednesday w then schedules_wednesday sd else schedules_regular sd
  end.

(** ** Classes and labels *)

Definition classesForDay (w : World) : list ClassInfo :=
  match getABDay w, scheduleData w with
  | Some RotA, Some sd => classes_A sd
  | Some RotB, Some sd => classes_B sd
  | _, _ => []
  end.

Definition findClassByPeriod (w : World) (p : string) : option ClassInfo :=
  List.find (fun c => String.eqb (period c) p) (classesForDay w).

(** [labelFromCode]: [arr[0]] and [arr[1]] are [undefined] ([None]) past
    the end of the array. *)
Definition labelFromCode (w : World) (arr : list string) : option string :=
  if bool_decide (arr !! 0%nat = Some "LUNCH") then arr !! 0%nat
  else
    let ab := match getABDay w with Some r => r | None => RotA end in
    if bool_decide (ab = RotA) then arr !! 0%nat else arr !! 1%nat.

(** ** Period matcher *)

Definition isCurrentRow (w : World) (row : BellRow) : bool :=
  let now := getNow w in
  let start := parseTime w (row_start row) in
  let end_ := parseTime w (row_end row) in
  dateGe now start && dateLe now end_.

Definition getCurrent (w : World) : option BellRow :=
  List.find (isCurrentRow w) (todaySchedule w).

Definition getNext (w : World) : option BellRow :=
  List.find (fun row => dateLt (getNow w) (parseTime w (row_start row)))
    (todaySchedule w).

(** The label shown for a row: [Array.isArray(row.code) ?
    labelFromCode(row.code) : row.code]. *)
Definition rowLabel (w : World) (row : BellRow) : option string :=
  match row_code row with
  | CodeArray arr => labelFromCode w arr
  | CodeLabel l => Some l
  end.

(** [/^A|^B/.test(label)]. *)
Definition startsWithAorB (label : string) : bool :=
  match label with
  | String c _ => Ascii.eqb c "A" || Ascii.eqb c "B"
  | EmptyString => false
  end.

Record PeriodItem : Type := mkPeriodItem {
  item_row : BellRow;
  item_start : option Z;
  item_end : option Z;
  item_label : option string;
  item_info : option ClassInfo
}.

Inductive PeriodStructure : Type :=
  | NoSchool
  | Periods (schedule : list PeriodItem).

Definition buildPeriodStructure (w : World) : PeriodStructure :=
  let sched := todaySchedule w in
  match getABDay w with
  | None => NoSchool
  | Some _ =>
      Periods (map (fun row =>
        let label := rowLabel w row in
        {| item_row := row;
           item_start := parseTime w (row_start row);
           item_end := parseTime w (row_end row);
           item_label := label;
           item_info := match label with
                        | Some l => if startsWithAorB l then findClassByPeriod w l else None
                        | None => None
                        end |}) sched)
  end.

(** ** Event resolver *)

(** [a.isSame(b, 'day')] of Day.js: [b] lies between the start and the
    end of the local day of [a]. *)
Definition isSameDay (tz a b : Z) : bool :=
  (startOfDay tz a <=? b) && (b <=? endOfDay tz a).

(** [dayjs(d).unix()]: whole seconds since the epoch. *)
Definition unix (d : Z) : Z := d / msPerSecond.

(** [Array.prototype.sort] with a comparator.  The sort is stable, and for
    a comparator that orders by a key there is one stable sorted
    arrangement; it is computed here by insertion from the right. *)
Fixpoint insertBy {A : Type} (cmp : A -> A -> Z) (x : A) (l : list A) : list A :=
  match l with
  | [] => [x]
  | y :: l' => if cmp x y <=? 0 then x :: y :: l' else y :: insertBy cmp x l'
  end.

Definition sortBy {A : Type} (cmp : A -> A -> Z) (l : list A) : list A :=
  foldr (insertBy cmp) [] l.

Definition compareStart (a b : CalEvent) : Z :=
  unix (toJSDate (startDate a)) - unix (toJSDate (startDate b)).

(** The predicate of the [filter] in [getTodaysEvents]. *)
Definition isTodaysEvent (tz today : Z) (event : CalEvent) : bool :=
  let eventStart := toJSDate (startDate event) in
  let eventEnd := toJSDate (endDate event) in
  isSameDay tz eventStart today
    || ((eventStart <? today) && (today <? eventEnd)).

Definition getTodaysEvents (w : World) : list CalEvent :=
  let today := startOfDay (zoneOffset w) (getNow w) in
  sortBy compareStart (List.filter (isTodaysEvent (zoneOffset w) today) (allCalendarEvents w)).

(** ** Calendar importer *)

(** How a JavaScript computation completes: with a value, or by throwing. *)
Inductive Completion (A : Type) : Type :=
  | Normal (a : A)
  | Throw.
Arguments Normal {A} a.
Arguments Throw {A}.

(** The properties of a [vevent] component that [ICAL.Event] reads; each is
    absent ([None]) when the component does not carry it.  [ve_duration]
    is in seconds. *)
Record VEvent : Type := mkVEvent {
  ve_summary : option string;
  ve_dtstart : option ICALTime;
  ve_dtend : option ICALTime;
  ve_duration : option Z;
  ve_location : option string
}.

(** The [endDate] getter of [ICAL.Event]: [DTEND] when present, otherwise a
    copy of the start moved by the duration, or by one day for a date-only
    start; reading the copy off a missing start throws. *)
Definition Event_endDate (v : VEvent) : Completion ICALTime :=
  match ve_dtend v with
  | Some e => Normal e
  | None =>
      match ve_dtstart v with
      | None => Throw
      | Some s =>
          Normal match ve_duration v with
                 | Some dur => {| unixTime := unixTime s + dur; isDate := isDate s |}
                 | None =>
                     if isDate s
                     then {| unixTime := unixTime s + 86400; isDate := true |}
                     else s
                 end
      end
  end.

(** The two collections the importer fills in place. *)
Record ImportState : Type := mkImportState {
  abDays : gmap string rotation;
  allEvents : list CalEvent
}.

(** Computations over the two collections that may throw: what was
    written before a throw stays written. *)
Definition Imp (A : Type) : Type := ImportState -> Completion A * ImportState.

Definition ret {A : Type} (a : A) : Imp A := fun s => (Normal a, s).

Definition bind {A B : Type} (m : Imp A) (k : A -> Imp B) : Imp B :=
  fun s => match m s with
           | (Normal a, s') => k a s'
           | (Throw, s') => (Throw, s')
           end.

Definition liftC {A : Type} (c : Completion A) : Imp A := fun s => (c, s).

Definition tryCatch {A : Type} (body handler : Imp A) : Imp A :=
  fun s => match body s with
           | (Normal a, s') => (Normal a, s')
           | (Throw, s') => handler s'
           end.

Notation "x <- m ;; k" := (bind m (fun x => k))
  (at level 100, m at level 99, right associativity).
Notation "m ;;; k" := (bind m (fun _ => k))
  (at level 100, right associativity).

Definition pushEvent (e : CalEvent) : Imp unit :=
  fun s => (Normal tt, {| abDays := abDays s; allEvents := allEvents s ++ [e] |}).

Definition setABDay (k : string) (r : rotation) : Imp unit :=
  fun s => (Normal tt, {| abDays := <[k := r]> (abDays s); allEvents := allEvents s |}).

(** Reading a property off a value that may be [null]. *)
Definition deref {A : Type} (o : option A) : Completion A :=
  match o with Some a => Normal a | None => Throw end.

(** The callback of [vevents.forEach]. *)
Definition importEvent (vevent : VEvent) : Imp unit :=
  let summary := ve_summary vevent in
  let startDate := ve_dtstart vevent in
  endDate <- liftC (Event_endDate vevent) ;;
  let location := default "" (ve_location vevent) in
  start <- liftC (deref startDate) ;;
  pushEvent {| summary := summary;
               startDate := start;
               endDate := endDate;
               location := location;
               isAllDay := if negb (isDate start) then false else true |} ;;;
  if bool_decide (summary = Some "A Day") || bool_decide (summary = Some "B Day") then
    iso <- liftC (deref (toISOString (toJSDate start))) ;;
    let dateStr := slice_0_10 iso in
    setABDay dateStr (if bool_decide (summary = Some "A Day") then RotA else RotB)
  else ret tt.

Fixpoint forEach {A : Type} (l : list A) (f : A -> Imp unit) : Imp unit :=
  match l with
  | [] => ret tt
  | x :: l' => f x ;;; forEach l' f
  end.

(** [parseICSCalendar].  The feed text enters only through [ICAL.parse];
    the argument is how lines 10 to 12 complete on it: the [vevent]
    components of the feed, or a throw for text that does not parse. *)
Definition parseICSCalendar (parsed : Completion (list VEvent))
  : Completion (gmap string rotation * list CalEvent) :=
  let body := vevents <- liftC parsed ;; forEach vevents importEvent in
  let '(c, s) := tryCatch body (ret tt) {| abDays := ∅; allEvents := [] |} in
  match c with
  | Normal _ => Normal (abDays s, allEvents s)
  | Throw => Throw
  end.

(** [loadScheduleData] after the configuration is in: the calendar is
    imported and its two collections become the globals. *)
Definition loadCalendar (w : World) (parsed : Completion (list VEvent)) : World :=
  match parseICSCalendar parsed with
  | Normal (abDays, allEvents) =>
      {| scheduleData := scheduleData w;
         calendarABDays := abDays;
         allCalendarEvents := allEvents;
         debugNow := debugNow w;
         wallClock := wallClock w;
         zoneOffset := zoneOffset w;
         zone := zone w |}
  | Throw => w
  end.

(** ** Formatters *)

(** The parts of a [dayjs.duration(n, 'seconds')] that [humanTime] reads.
    Day.js takes whole years of 365 days and then whole months of a twelfth
    of a year off the milliseconds before it splits the rest into days,
    hours, minutes and seconds; quotients and remainders truncate. *)
Definition msPerYear : Z := msPerDay * 365.
Definition msPerMonth : Z := msPerYear / 12.

Record Duration : Type := mkDuration {
  dur_hours : Z;
  dur_minutes : Z;
  dur_seconds : Z
}.

Definition duration_seconds (n : Z) : Duration :=
  let ms := n * msPerSecond in
  let ms := Z.rem ms msPerYear in
  let ms := Z.rem ms msPerMonth in
  let ms := Z.rem ms msPerDay in
  {| dur_hours := Z.quot ms msPerHour;
     dur_minutes := Z.quot (Z.rem ms msPerHour) msPerMinute;
     dur_seconds := Z.quot (Z.rem (Z.rem ms msPerHour) msPerMinute) msPerSecond |}.

(** [humanTime].  The script's seconds are differences of instants
    divided by 1000, so a number of seconds is given here by its
    thousandths, the milliseconds [ms]; [Math.floor(seconds)] is then the
    quotient [ms / 1000] rounded down (the rounding of floating-point
    division is not modelled).  [None] is [NaN], which every comparison
    fails and which prints as ["NaN"]. *)
Definition humanTime (ms : option Z) : string :=
  match ms with
  | None => "NaNs"
  | Some ms =>
      let duration := duration_seconds (Z.max 0 (ms / msPerSecond)) in
      let h := dur_hours duration in
      let m := dur_minutes duration in
      let s := dur_seconds duration in
      if 0 <? h then
        string_of_Z h +:+ "h " +:+ string_of_Z m +:+ "m " +:+ string_of_Z s +:+ "s"
      else if 0 <? m then
        string_of_Z m +:+ "m " +:+ string_of_Z s +:+ "s"
      else
        string_of_Z s +:+ "s"
  end.

(** [hhmm]: [dayjs(date).format('h:mma').toLowerCase()], the local time on
    a twelve-hour clock. *)
Definition hhmm (tz d : Z) : string :=
  let hour := timeOfDay tz d / msPerHour in
  let minute := timeOfDay tz d mod msPerHour / msPerMinute in
  string_of_Z (if hour mod 12 =? 0 then 12 else hour mod 12)
    +:+ ":" +:+ padStart0 2 (string_of_Z minute)
    +:+ (if hour <? 12 then "am" else "pm").

(** ** Rendering decisions *)

(** [a > b] between a date and a possibly invalid date. *)
Definition dateGt (a : Z) (b : option Z) : bool :=
  match b with Some b => b <? a | None => false end.

(** [(a - b) / 1000] between possibly invalid dates, in thousandths of a
    second. *)
Definition secondsBetween (a b : option Z) : option Z :=
  match a, b with
  | Some a, Some b => Some (a - b)
  | _, _ => None
  end.

(** What [updateDynamicContent] writes for one item: the class of the
    period element, the text of its time-remaining box, and the text of
    the banner put before it. *)
Record PeriodView : Type := mkPeriodView {
  pv_class : string;
  pv_remaining : option string;
  pv_banner : option string
}.

Definition periodView (w : World) (now : Z) (current next : option BellRow)
    (item : PeriodItem) : PeriodView :=
  let start := item_start item in
  let end_ := item_end item in
  let label := item_label item in
  if dateGt now end_ then
    {| pv_class := "period passed"; pv_remaining := None; pv_banner := None |}
  else
    match current with
    | Some current =>
        if bool_decide (label = rowLabel w current) then
          let total := secondsBetween end_ start in
          let passed := secondsBetween (Some now) start in
          let remain := humanTime (match total, passed with
                                   | Some t, Some p => Some (t - p)
                                   | _, _ => None
                                   end) in
          {| pv_class := "period active";
             pv_remaining := Some (remain +:+ " left");
             pv_banner := None |}
        else {| pv_class := "period"; pv_remaining := None; pv_banner := None |}
    | None =>
        match next with
        | Some next =>
            if bool_decide (label = rowLabel w next) then
              let untilStart :=
                match secondsBetween start (Some now) with
                | Some u => Some (Z.max 0 u)
                | None => None
                end in
              {| pv_class := "period";
                 pv_remaining := None;
                 pv_banner := Some ("Next class starts in " +:+ humanTime untilStart) |}
            else {| pv_class := "period"; pv_remaining := None; pv_banner := None |}
        | None => {| pv_class := "period"; pv_remaining := None; pv_banner := None |}
        end
    end.

(** [renderPeriods], as far as its decisions go: the views of the items of
    the structure, or nothing but the no-school message. *)
Definition renderPeriods (w : World) : option (list PeriodView) :=
  let now := getNow w in
  let current := getCurrent w in
  let next := getNext w in
  match buildPeriodStructure w with
  | NoSchool => None
  | Periods schedule => Some (map (periodView w now current next) schedule)
  end.

(** One row of the events panel. *)
Record EventView : Type := mkEventView {
  ev_class : string;
  ev_time : string;
  ev_title : option string;
  ev_location : option string
}.

(** The events panel: the no-events message, or the rows. *)
Inductive EventsPanel : Type :=
  | NoEventsMessage
  | EventRows (rows : list EventView).

Definition isSentinel (event : CalEvent) : bool :=
  bool_decide (summary event = Some "A Day") || bool_decide (summary event = Some "B Day").

Definition eventView (w : World) (now : Z) (event : CalEvent) : EventView :=
  let start := toJSDate (startDate event) in
  let end_ := toJSDate (endDate event) in
  {| ev_class :=
       if negb (isAllDay event) then
         if (start <=? now) && (now <=? end_) then "event active"
         else if end_ <? now then "event passed"
         else "event"
       else "event";
     ev_time :=
       if isAllDay event then "All Day"
       else if negb (end_ =? start)
            then hhmm (zoneOffset w) start +:+ "–" +:+ hhmm (zoneOffset w) end_
            else hhmm (zoneOffset w) start;
     ev_title := summary event;
     ev_location := if bool_decide (location event = "") then None
                    else Some (location event) |}.

Definition renderEvents (w : World) : EventsPanel :=
  let todaysEvents := getTodaysEvents w in
  if (length todaysEvents =? 0)%nat then NoEventsMessage
  else
    let now := getNow w in
    EventRows (map (eventView w now)
                 (List.filter (fun event => negb (isSentinel event)) todaysEvents)).

(** ** Loading *)




(** The state of the script before anything is loaded. *)
Definition initialWorld (clock tz : Z) : World :=
  {| scheduleData := None;
     calendarABDays := ∅;
     allCalendarEvents := [];
     debugNow := None;
     wallClock := clock;
     zoneOffset := tz;
     zone := fixedZone tz |}.

(** ** The specification's words *)

(** The school-day predicate as the specification states it: within
    [start, end], not a weekend day, date not among the off-days. *)
Definition spec_isSchoolDay (tz : Z) (sd : ScheduleData) (d : Z) : Prop :=
  schoolYear_start sd <= d <= schoolYear_end sd
  /\ getDay tz d <> 6 /\ getDay tz d <> 0
  /\ ~ In (ymd tz d) (offDays sd).

(** A row is current when [row.start <= now <= row.end], the two times
    taken on the day of [now]. *)
Definition spec_rowCurrent (w : World) (row : BellRow) : Prop :=
  exists s e,
    parseTime w (row_start row) = Some s
    /\ parseTime w (row_end row) = Some e
    /\ s <= getNow w <= e.

(** A calendar date, as a day number, is a school date when it is not a
    Saturday or a Sunday and its text is not among the off-days. *)
Definition spec_schoolDate (sd : ScheduleData) (day : Z) : bool :=
  negb (((day + 4) mod 7 =? 0) || ((day + 4) mod 7 =? 6))
    && negb (bool_decide (format_YYYY_MM_DD day ∈ offDays sd)).

(** The number of school dates among the calendar dates from [first]
    through [last], both included. *)
Definition spec_schoolDayCount (sd : ScheduleData) (first last : Z) : Z :=
  Z.of_nat (length (List.filter (spec_schoolDate sd) (seqZ first (last - first + 1)))).

(** An event is on the day of [now] when it starts on the same calendar
    date, or starts strictly before the start of that day and ends strictly
    after it. *)
Definition spec_eventOnDay (tz now : Z) (event : CalEvent) : Prop :=
  localDay tz (toJSDate (startDate event)) = localDay tz now
  \/ (toJSDate (startDate event) < startOfDay tz now
      /\ startOfDay tz now < toJSDate (endDate event)).

Global Instance spec_eventOnDay_dec tz now event :
  Decision (spec_eventOnDay tz now event).
Proof. unfold spec_eventOnDay. apply _. Defined.

(** Ascending by start instant. *)
Definition spec_startsBefore (a b : CalEvent) : Prop :=
  toJSDate (startDate a) <= toJSDate (startDate b).

(** A row starts after [now] when its start, taken on the day of [now], is
    strictly later. *)
Definition spec_rowStartsAfter (w : World) (row : BellRow) : Prop :=
  exists s, parseTime w (row_start row) = Some s /\ getNow w < s.

(** The text ["HH:MM"] of an hour and a minute, as the bell tables write
    it. *)
Definition hhmmText (h m : Z) : string :=
  padStart0 2 (string_of_Z h) +:+ ":" +:+ padStart0 2 (string_of_Z m).

(** Whether a character occurs in a text. *)
Fixpoint hasChar (c : ascii) (s : string) : bool :=
  match s with
  | EmptyString => false
  | String c' rest => Ascii.eqb c' c || hasChar c rest
  end.

(** The instants the counting loop visits from [start] up to [d]: [start],
    and after each one the same local time on the next calendar date, as
    long as the instant is not after [d]. *)
Fixpoint walkFrom (fuel : nat) (z : Zone) (cur d : Z) : list Z :=
  if cur <=? d then
    match fuel with
    | O => []
    | S fuel' => cur :: walkFrom fuel' z (nextDate z cur) d
    end
  else [].

Definition spec_walk (z : Zone) (start d : Z) : list Z :=
  walkFrom (walkLength start d) z start d.

(** The number of school-day instants among the instants of a walk. *)
Definition spec_walkCount (w : World) (start d : Z) : Z :=
  Z.of_nat (length (List.filter (isSchoolDayOnWalk w) (spec_walk (zone w) start d))).

(** The instant of the local midnight that begins a date, and whether the
    zone has that midnight: the local time at that instant is 00:00 of the
    date. *)
Definition midnightOf (z : Zone) (day : Z) : Z := toUTC z (day * msPerDay).

Definition spec_midnightExists (z : Zone) (day : Z) : Prop :=
  offsetAt z (midnightOf z day) = offsetOfLocal z (day * msPerDay).

(** The dates from [first] through [today] are whole in the zone, and
    [now] is on [today]: [today] is not before [first], each of the dates
    has its local midnight, and [now] is at or after the midnight of
    [today] and before the midnight of the next date. *)
Definition spec_wholeDates (z : Zone) (first today now : Z) : Prop :=
  first <= today
  /\ (forall day, first <= day <= today -> spec_midnightExists z day)
  /\ midnightOf z today <= now < midnightOf z (today + 1).

(** ** Sample configuration *)

(** The instant of a local wall time: day number and time of day. *)
Definition localInstant (tz day ms : Z) : Z := day * msPerDay + ms - tz.

(** The simulated instant set through the debug control. *)
Definition atInstant (w : World) (d : Z) : World :=
  {| scheduleData := scheduleData w;
     calendarABDays := calendarABDays w;
     allCalendarEvents := allCalendarEvents w;
     debugNow := Some d;
     wallClock := wallClock w;
     zoneOffset := zoneOffset w;
     zone := zone w |}.

(** Mountain Daylight Time, six hours behind UTC. *)
Definition denverOffset : Z := -21600000.

(** Day numbers of 2025-08-13 (a Wednesday) and 2026-05-22 (a Friday). *)
Definition day_2025_08_13 : Z := 20313.
Definition day_2026_05_22 : Z := 20595.

(** The school year of the fallback configuration of [loadScheduleData]
    (["2025-08-13T00:00:00"] to ["2026-05-22T23:59:59"]), with bell tables
    that agree with the checks of [runTests]. *)
Definition sampleData : ScheduleData :=
  {| schoolYear_start := localInstant denverOffset day_2025_08_13 0;
     schoolYear_end := localInstant denverOffset day_2026_05_22 86399000;
     offDays := ["2025-09-01"];
     schedules_regular :=
       [ mkBellRow "07:45" "09:04" (CodeArray ["A1"; "B5"]);
         mkBellRow "09:14" "10:33" (CodeArray ["A2"; "B6"]);
         mkBellRow "12:07" "12:37" (CodeArray ["LUNCH"; "LUNCH"]);
         mkBellRow "12:43" "14:00" (CodeArray ["A4"; "B8"]) ];
     schedules_wednesday :=
       [ mkBellRow "08:30" "09:34" (CodeArray ["A1"; "B5"]);
         mkBellRow "09:44" "10:48" (CodeArray ["A2"; "B6"]) ];
     classes_A := [ mkClassInfo "A1" "Algebra" "101" "Ada Byron" ];
     classes_B := [ mkClassInfo "B5" "Biology" "202" "Carl Linne" ] |}.

Definition sampleWorld : World :=
  {| scheduleData := Some sampleData;
     calendarABDays := ∅;
     allCalendarEvents := [];
     debugNow := None;
     wallClock := localInstant denverOffset day_2025_08_13 0;
     zoneOffset := denverOffset;
     zone := denverZone |}.

(** Mountain Standard Time, seven hours behind UTC, and the sample world
    on a winter day, at a simulated instant. *)
Definition denverWinterOffset : Z := -25200000.

Definition sampleWinterAt (d : Z) : World :=
  {| scheduleData := Some sampleData;
     calendarABDays := ∅;
     allCalendarEvents := [];
     debugNow := Some d;
     wallClock := 0;
     zoneOffset := denverWinterOffset;
     zone := denverZone |}.

(** Whether the zone has the local midnight of a date, as a check. *)
Definition midnightExistsb (z : Zone) (day : Z) : bool :=
  offsetAt z (midnightOf z day) =? offsetOfLocal z (day * msPerDay).

(** The sample world at a simulated local wall time. *)
Definition sampleAt (day ms : Z) : World :=
  atInstant sampleWorld (localInstant denverOffset day ms).

(** The sample world on its first school day, with a B entry for that
    date in the calendar. *)
Definition overriddenWorld : World :=
  {| scheduleData := Some sampleData;
     calendarABDays := {[ "2025-08-13" := RotB ]};
     allCalendarEvents := [];
     debugNow := Some (localInstant denverOffset day_2025_08_13 30000000);
     wallClock := 0;
     zoneOffset := denverOffset;
     zone := denverZone |}.

(** A school year that ends at noon of 2026-05-22, seen at one o'clock of
    that day. *)
Definition noonEndData : ScheduleData :=
  {| schoolYear_start := localInstant denverOffset day_2025_08_13 0;
     schoolYear_end := localInstant denverOffset day_2026_05_22 43200000;
     offDays := [];
     schedules_regular := [];
     schedules_wednesday := [];
     classes_A := [];
     classes_B := [] |}.

Definition noonEndWorld : World :=
  {| scheduleData := Some noonEndData;
     calendarABDays := ∅;
     allCalendarEvents := [];
     debugNow := Some (localInstant denverOffset day_2026_05_22 46800000);
     wallClock := 0;
     zoneOffset := denverOffset;
     zone := denverZone |}.

(** A table with the row of the boundary example, from 09:00 to 09:04. *)
Definition boundaryWorld (ms : Z) : World :=
  {| scheduleData :=
       Some {| schoolYear_start := localInstant denverOffset day_2025_08_13 0;
               schoolYear_end := localInstant denverOffset day_2026_05_22 86399000;
               offDays := [];
               schedules_regular :=
                 [ mkBellRow "07:45" "08:55" (CodeArray ["A1"; "B5"]);
                   mkBellRow "09:00" "09:04" (CodeLabel "ADVISORY");
                   mkBellRow "09:04" "10:30" (CodeArray ["A2"; "B6"]) ];
               schedules_wednesday := [];
               classes_A := [];
               classes_B := [] |};
     calendarABDays := ∅;
     allCalendarEvents := [];
     debugNow := Some (localInstant denverOffset 20333 ms);
     wallClock := 0;
     zoneOffset := denverOffset;
     zone := denverZone |}.

(** Central European Time, one hour ahead of UTC. *)
Definition cetOffset : Z := 3600000.

(** The sample school year seen from a browser in Central European Time,
    before the calendar is loaded. *)
Definition cetWorld : World :=
  {| scheduleData :=
       Some {| schoolYear_start := localInstant cetOffset day_2025_08_13 0;
               schoolYear_end := localInstant cetOffset day_2026_05_22 86399000;
               offDays := [];
               schedules_regular := [];
               schedules_wednesday := [];
               classes_A := [];
               classes_B := [] |};
     calendarABDays := ∅;
     allCalendarEvents := [];
     debugNow := None;
     wallClock := localInstant cetOffset day_2025_08_13 32400000;
     zoneOffset := cetOffset;
     zone := fixedZone cetOffset |}.

(** An all-day sentinel event: a date-only start at local midnight of the
    day in the zone [tz]. *)
Definition allDayEvent (tz : Z) (title : string) (day : Z) : VEvent :=
  {| ve_summary := Some title;
     ve_dtstart := Some {| unixTime := localInstant tz day 0 / msPerSecond; isDate := true |};
     ve_dtend := None;
     ve_duration := None;
     ve_location := None |}.

(** A feed that marks 2025-08-13 as an A day and 2025-08-14 as a B day. *)
Definition rotationFeed (tz : Z) : Completion (list VEvent) :=
  Normal [ allDayEvent tz "A Day" day_2025_08_13;
           allDayEvent tz "B Day" (day_2025_08_13 + 1) ].

(** A school year that starts at eight in the morning of 2025-08-13, seen
    at seven in the morning of the next day. *)
Definition lateStartData : ScheduleData :=
  {| schoolYear_start := localInstant denverOffset day_2025_08_13 28800000;
     schoolYear_end := localInstant denverOffset day_2026_05_22 86399000;
     offDays := [];
     schedules_regular := [];
     schedules_wednesday := [];
     classes_A := [];
     classes_B := [] |}.

Definition lateStartWorld : World :=
  {| scheduleData := Some lateStartData;
     calendarABDays := ∅;
     allCalendarEvents := [];
     debugNow := Some (localInstant denverOffset (day_2025_08_13 + 1) 25200000);
     wallClock := 0;
     zoneOffset := denverOffset;
     zone := denverZone |}.

(** Events around Tuesday 2025-09-02 (day 20333): a meeting at ten, a
    tournament from two days before to the day after, a concert the next
    day, a breakfast at eight, and a fair that ended the day before. *)
Definition timedEvent (title : string) (day0 ms0 day1 ms1 : Z) : CalEvent :=
  {| summary := Some title;
     startDate := {| unixTime := localInstant denverOffset day0 ms0 / msPerSecond;
                     isDate := false |};
     endDate := {| unixTime := localInstant denverOffset day1 ms1 / msPerSecond;
                   isDate := false |};
     location := "";
     isAllDay := false |}.

Definition eventsWorld : World :=
  {| scheduleData := Some sampleData;
     calendarABDays := ∅;
     allCalendarEvents :=
       [ timedEvent "Meeting" 20333 36000000 20333 39600000;
         timedEvent "Tournament" 20331 32400000 20334 61200000;
         timedEvent "Concert" 20334 68400000 20334 75600000;
         timedEvent "Breakfast" 20333 28800000 20333 30600000;
         timedEvent "Fair" 20331 32400000 20332 61200000 ];
     debugNow := Some (localInstant denverOffset 20333 43200000);
     wallClock := 0;
     zoneOffset := denverOffset;
     zone := denverZone |}.

(** ** The checks of [runTests] *)

(** [periodAt], with the date already read into a time value.  [base] is
    the object [debugNow] points to while the rows are tried, so
    [setHours] on it moves [debugNow] too; a time that does not parse makes
    [base] invalid and no row matches.  [None] is [null], [Some None] is
    [undefined].  When the call completes, [debugNow] is back to what it
    was; with no configuration the read of [scheduleData.schedules]
    throws. *)
Definition periodAt (w : World) (date : Z) (timeHM : string) (wed : bool)
  : Completion (option (option string)) :=
  match scheduleData w with
  | None => Throw
  | Some sd =>
      let sched := if wed then schedules_wednesday sd else schedules_regular sd in
      match map Number (split ":" timeHM) with
      | Some h :: Some m :: _ =>
          let base := setHours (zoneOffset w) date h m in
          let w' := atInstant w base in
          match List.find (fun r => dateGe base (parseTime w' (row_start r))
                                      && dateLe base (parseTime w' (row_end r))) sched with
          | Some r => Normal (Some match row_code r with
                                   | CodeArray arr => arr !! 0%nat
                                   | CodeLabel l => Some l
                                   end)
          | None => Normal None
          end
      | _ => Normal None
      end
  end.

(** A day whose only events are the two rotation sentinels. *)
Definition sentinelOnlyWorld : World :=
  loadCalendar (atInstant sampleWorld (localInstant denverOffset day_2025_08_13 32400000))
    (rotationFeed denverOffset).


(** A component is well formed for the importer when it has a start whose
    instant a [Date] can hold. *)
Definition spec_wellFormed (v : VEvent) : Prop :=
  exists s, ve_dtstart v = Some s
            /\ - maxTimeValue <= toJSDate s <= maxTimeValue.

(** The day number of 2099-12-31. *)
Definition lastCheckedDay : Z := 47481.

(** * Properties *)

(** ** Calendar arithmetic *)

(** Sanity checks of the calendar arithmetic against known dates. *)
Example ymd_epoch : ymd 0 0 = "1970-01-01".
Proof. reflexivity. Qed.

Example ymd_2025_08_13 : ymd 0 1755043200000 = "2025-08-13".
Proof. vm_compute. reflexivity. Qed.

Example dddd_2025_08_13 : format_dddd 0 1755043200000 = "Wednesday".
Proof. vm_compute. reflexivity. Qed.

Example iso_2025_08_13 :
  toISOString 1755043200000 = Some "2025-08-13T00:00:00.000Z".
Proof. vm_compute. reflexivity. Qed.

Example ymd_leap_day : ymd 0 1709164800000 = "2024-02-29".
Proof. vm_compute. reflexivity. Qed.

Example ymd_before_epoch : ymd 0 (-1) = "1969-12-31".
Proof. vm_compute. reflexivity. Qed.

Ltac divmod := Z.div_mod_to_equations; lia.

Lemma localTime_split tz d :
  localTime tz d = localDay tz d * msPerDay + timeOfDay tz d.
Proof. unfold localDay, timeOfDay, msPerDay. divmod. Qed.

Lemma timeOfDay_range tz d : 0 <= timeOfDay tz d < msPerDay.
Proof. unfold timeOfDay, msPerDay. divmod. Qed.

Lemma startOfDay_eq tz d : startOfDay tz d = d - timeOfDay tz d.
Proof.
  pose proof (localTime_split tz d) as H. unfold startOfDay, localTime in *. lia.
Qed.

Lemma localDay_add_days tz d i :
  localDay tz (d + i * msPerDay) = localDay tz d + i.
Proof.
  unfold localDay, localTime.
  replace (d + i * msPerDay + tz) with (d + tz + i * msPerDay) by lia.
  apply Z.div_add. unfold msPerDay. lia.
Qed.

Lemma timeOfDay_add_days tz d i :
  timeOfDay tz (d + i * msPerDay) = timeOfDay tz d.
Proof.
  unfold timeOfDay, localTime.
  replace (d + i * msPerDay + tz) with (d + tz + i * msPerDay) by lia.
  apply Z.mod_add. unfold msPerDay. lia.
Qed.

Lemma localDay_le_mono tz a b : a <= b -> localDay tz a <= localDay tz b.
Proof.
  intros H. unfold localDay, localTime. apply Z.div_le_mono; unfold msPerDay; lia.
Qed.

(** An instant at local midnight is at or before [d] exactly when its day
    is at or before the day of [d]. *)
Lemma midnight_le_iff tz c d :
  timeOfDay tz c = 0 -> (c <= d <-> localDay tz c <= localDay tz d).
Proof.
  intros Hc.
  pose proof (localTime_split tz c) as Sc. pose proof (localTime_split tz d) as Sd.
  pose proof (timeOfDay_range tz d) as Rd.
  unfold localTime, msPerDay in *. lia.
Qed.

Lemma getDay_range tz d : 0 <= getDay tz d < 7.
Proof. unfold getDay. divmod. Qed.

Lemma isWeekend_true_iff tz d :
  isWeekend tz d = true <-> getDay tz d = 0 \/ getDay tz d = 6.
Proof. unfold isWeekend. rewrite orb_true_iff, !Z.eqb_eq. tauto. Qed.

Lemma isWeekend_false_iff tz d :
  isWeekend tz d = false <-> getDay tz d <> 0 /\ getDay tz d <> 6.
Proof. unfold isWeekend. rewrite orb_false_iff, !Z.eqb_neq. tauto. Qed.

Lemma format_dddd_Wednesday tz d :
  String.eqb (format_dddd tz d) "Wednesday" = true <-> getDay tz d = 3.
Proof.
  unfold format_dddd. pose proof (getDay_range tz d) as R.
  assert (getDay tz d = 0 \/ getDay tz d = 1 \/ getDay tz d = 2 \/ getDay tz d = 3
          \/ getDay tz d = 4 \/ getDay tz d = 5 \/ getDay tz d = 6) as C by lia.
  destruct C as [E|[E|[E|[E|[E|[E|E]]]]]]; rewrite E; simpl;
    split; intros H; try reflexivity; try discriminate; try lia.
Qed.

(** ** Schedule selector *)

Lemma isWednesday_true_iff w :
  isWednesday w = true <-> getDay (zoneOffset w) (getNow w) = 3.
Proof. unfold isWednesday. apply format_dddd_Wednesday. Qed.

(** C8. The selected table is the Wednesday (reduced) table when the local
    weekday of the instant is Wednesday and the regular (standard) table
    otherwise; two worlds with the same tables and the same weekday select
    the same table, whatever their school year, off-days and overrides
    make of the day. *)
Theorem todaySchedule_weekday_only (w : World) (sd : ScheduleData) :
  scheduleData w = Some sd ->
  (getDay (zoneOffset w) (getNow w) = 3 -> todaySchedule w = schedules_wednesday sd)
  /\ (getDay (zoneOffset w) (getNow w) <> 3 -> todaySchedule w = schedules_regular sd)
  /\ (forall w' sd',
        scheduleData w' = Some sd' ->
        schedules_wednesday sd' = schedules_wednesday sd ->
        schedules_regular sd' = schedules_regular sd ->
        getDay (zoneOffset w') (getNow w') = getDay (zoneOffset w) (getNow w) ->
        todaySchedule w' = todaySchedule w).
Proof.
  intros Hsd.
  assert (forall v s, scheduleData v = Some s ->
            todaySchedule v =
              if getDay (zoneOffset v) (getNow v) =? 3
              then schedules_wednesday s else schedules_regular s) as Sel.
  { intros v s Hs. unfold todaySchedule. rewrite Hs.
    destruct (isWednesday v) eqn:Wd.
    - apply isWednesday_true_iff in Wd. rewrite Wd. reflexivity.
    - destruct (getDay (zoneOffset v) (getNow v) =? 3) eqn:E; [|reflexivity].
      apply Z.eqb_eq, isWednesday_true_iff in E. congruence. }
  repeat split.
  - intros E. rewrite (Sel w sd Hsd), E. reflexivity.
  - intros E. rewrite (Sel w sd Hsd). apply Z.eqb_neq in E. rewrite E. reflexivity.
  - intros w' sd' Hsd' Ew Er Eg.
    rewrite (Sel w' sd' Hsd'), (Sel w sd Hsd), Eg, Ew, Er. reflexivity.
Qed.

(** On a Wednesday outside the school year (2026-07-01) the Wednesday
    table is still the one selected. *)
Lemma todaySchedule_weekday_only_witness :
  isSchoolDay (sampleAt 20635 30000000) (getNow (sampleAt 20635 30000000)) = false
  /\ todaySchedule (sampleAt 20635 30000000) = schedules_wednesday sampleData.
Proof.
  split; [vm_compute; reflexivity|].
  apply (proj1 (todaySchedule_weekday_only (sampleAt 20635 30000000) sampleData eq_refl)).
  vm_compute. reflexivity.
Defined.

(** ** Day classifier *)

Lemma isSchoolDay_spec w sd d :
  scheduleData w = Some sd ->
  (isSchoolDay w d = true <-> spec_isSchoolDay (zoneOffset w) sd d).
Proof.
  intros Hsd. unfold isSchoolDay, spec_isSchoolDay. rewrite Hsd.
  rewrite !andb_true_iff, !negb_true_iff, !Z.leb_le, bool_decide_eq_false.
  rewrite elem_of_list_to_set, list_elem_of_In.
  rewrite <- not_true_iff_false, isWeekend_true_iff. tauto.
Qed.

Lemma isSchoolDay_has_data w d :
  isSchoolDay w d = true -> exists sd, scheduleData w = Some sd.
Proof.
  unfold isSchoolDay. destruct (scheduleData w) as [sd|]; [eauto|discriminate].
Qed.

Lemma getABDay_not_school w :
  isSchoolDay w (getNow w) = false -> getABDay w = None.
Proof.
  intros H. unfold getABDay, getABDay_fuel. rewrite H. simpl.
  destruct (scheduleData w); reflexivity.
Qed.

(** C2. With a configuration loaded, [isSchoolDay] holds of an instant
    exactly when the instant lies in [start, end] (both ends included), its
    local weekday is neither Saturday nor Sunday and its local date is not
    among the off-days; at an instant where this fails [getABDay] is
    [null]. *)
Theorem isSchoolDay_iff_range_weekday_offDays (w : World) (sd : ScheduleData) :
  scheduleData w = Some sd ->
  (forall d, isSchoolDay w d = true <-> spec_isSchoolDay (zoneOffset w) sd d)
  /\ (~ spec_isSchoolDay (zoneOffset w) sd (getNow w) -> getABDay w = None).
Proof.
  intros Hsd. split.
  - intros d. apply isSchoolDay_spec, Hsd.
  - intros Hn. apply getABDay_not_school.
    destruct (isSchoolDay w (getNow w)) eqn:E; [|reflexivity].
    exfalso. apply Hn. apply (isSchoolDay_spec w sd _ Hsd). exact E.
Qed.

(** Labor Day 2025, a Monday inside the school year listed among the
    off-days: no rotation. *)
Lemma isSchoolDay_iff_range_weekday_offDays_witness :
  getABDay (sampleAt 20332 36000000) = None.
Proof.
  apply (proj2 (isSchoolDay_iff_range_weekday_offDays
                  (sampleAt 20332 36000000) sampleData eq_refl)).
  intros (_ & _ & _ & Hoff). apply Hoff. vm_compute. left. reflexivity.
Defined.

(** C4. On a school day whose date has an entry in [calendarABDays],
    [getABDay] returns that entry, whatever the count from the start of
    the year would give. *)
Theorem getABDay_override_wins (w : World) (r : rotation) :
  isSchoolDay w (getNow w) = true ->
  calendarABDays w !! ymd (zoneOffset w) (getNow w) = Some r ->
  getABDay w = Some r.
Proof.
  intros Hs Ho. destruct (isSchoolDay_has_data _ _ Hs) as [sd Hsd].
  unfold getABDay, getABDay_fuel. rewrite Hsd, Hs, Ho. reflexivity.
Qed.

(** The first school day of the sample year counts as an A day; with a
    B entry for its date in the calendar it is a B day. *)
Lemma getABDay_override_wins_witness :
  getABDay (sampleAt day_2025_08_13 30000000) = Some RotA
  /\ getABDay overriddenWorld = Some RotB.
Proof.
  split; [vm_compute; reflexivity|].
  apply (getABDay_override_wins overriddenWorld RotB); vm_compute; reflexivity.
Defined.

(** C10 as stated fails: with the school year ending at noon of
    2026-05-22, one o'clock of that Friday is not a school day. *)
Lemma end_day_after_end_time_counterexample :
  let w := noonEndWorld in
  let d := getNow w in
  let e := schoolYear_end noonEndData in
  localDay (zoneOffset w) d = localDay (zoneOffset w) e
  /\ timeOfDay (zoneOffset w) e < timeOfDay (zoneOffset w) d
  /\ schoolYear_start noonEndData <= d
  /\ isWeekend (zoneOffset w) d = false
  /\ ~ In (ymd (zoneOffset w) d) (offDays noonEndData)
  /\ isSchoolDay w d = false.
Proof.
  repeat split; try (vm_compute; reflexivity); try (vm_compute; discriminate).
  intros [].
Qed.

(** C10, amended. The range check compares instants: on the calendar day
    of [config.end], an instant at or after [config.start] that is a
    weekday and not an off-day is a school day exactly when its time of
    day is at or before that of [config.end]. *)
Theorem isSchoolDay_end_day_by_instant (w : World) (sd : ScheduleData) (d : Z) :
  scheduleData w = Some sd ->
  localDay (zoneOffset w) d = localDay (zoneOffset w) (schoolYear_end sd) ->
  schoolYear_start sd <= d ->
  isWeekend (zoneOffset w) d = false ->
  ~ In (ymd (zoneOffset w) d) (offDays sd) ->
  (isSchoolDay w d = true
   <-> timeOfDay (zoneOffset w) d <= timeOfDay (zoneOffset w) (schoolYear_end sd)).
Proof.
  intros Hsd Hday Hstart Hwk Hoff.
  rewrite (isSchoolDay_spec w sd d Hsd). unfold spec_isSchoolDay.
  pose proof (localTime_split (zoneOffset w) d) as Sd.
  pose proof (localTime_split (zoneOffset w) (schoolYear_end sd)) as Se.
  rewrite Hday in Sd. unfold localTime in *.
  apply isWeekend_false_iff in Hwk. destruct Hwk as [W0 W6].
  split.
  - intros ((_ & Hle) & _). lia.
  - intros Hle. repeat split; auto; lia.
Qed.

Lemma isSchoolDay_end_day_by_instant_witness :
  isSchoolDay noonEndWorld (localInstant denverOffset day_2026_05_22 43200000) = true.
Proof.
  apply (isSchoolDay_end_day_by_instant noonEndWorld _ _ eq_refl).
  - vm_compute. reflexivity.
  - vm_compute. discriminate.
  - vm_compute. reflexivity.
  - intros [].
  - vm_compute. discriminate.
Defined.

(** ** Period matcher *)

Section Find.
Context {A : Type} (f : A -> bool).

Lemma find_Some_first (l : list A) (x : A) :
  List.find f l = Some x <->
  exists l1 l2, l = l1 ++ x :: l2 /\ f x = true /\ Forall (fun y => f y = false) l1.
Proof.
  induction l as [|y l IH]; simpl.
  - split; [discriminate|]. intros (l1 & l2 & E & _). destruct l1; discriminate.
  - destruct (f y) eqn:Fy.
    + split.
      * intros [= <-]. exists [], l. auto.
      * intros (l1 & l2 & E & Fx & Hl1). destruct l1 as [|z l1]; simpl in E.
        -- congruence.
        -- injection E as <- _. inversion Hl1; congruence.
    + rewrite IH. split.
      * intros (l1 & l2 & -> & Fx & Hl1). exists (y :: l1), l2. auto.
      * intros (l1 & l2 & E & Fx & Hl1). destruct l1 as [|z l1]; simpl in E.
        -- injection E as -> _. congruence.
        -- injection E as <- ->. inversion Hl1; subst. eauto.
Qed.

Lemma find_None_all (l : list A) :
  List.find f l = None <-> Forall (fun y => f y = false) l.
Proof.
  induction l as [|y l IH]; simpl.
  - split; auto.
  - destruct (f y) eqn:Fy.
    + split; [discriminate|]. intros H. inversion H; congruence.
    + rewrite IH. split; [auto|]. intros H. inversion H; auto.
Qed.
End Find.

Lemma setHours_eq tz d h m :
  setHours tz d h m = d - timeOfDay tz d + h * msPerHour + m * msPerMinute.
Proof. unfold setHours. rewrite startOfDay_eq. reflexivity. Qed.

Lemma isCurrentRow_spec w row :
  isCurrentRow w row = true <-> spec_rowCurrent w row.
Proof.
  unfold isCurrentRow, spec_rowCurrent, dateGe, dateLe.
  destruct (parseTime w (row_start row)) as [s|], (parseTime w (row_end row)) as [e|];
    simpl; rewrite ?andb_true_iff, ?Z.leb_le.
  - split.
    + intros [H1 H2]. exists s, e. auto.
    + intros (s' & e' & [= <-] & [= <-] & H). lia.
  - split; [intros [_ H]; discriminate|]. intros (s' & e' & _ & H & _). discriminate.
  - split; [discriminate|]. intros (s' & e' & H & _). discriminate.
  - split; [discriminate|]. intros (s' & e' & H & _). discriminate.
Qed.

Lemma isCurrentRow_false_spec w row :
  isCurrentRow w row = false <-> ~ spec_rowCurrent w row.
Proof. rewrite <- isCurrentRow_spec. symmetry. apply not_true_iff_false. Qed.

Lemma Forall_isCurrentRow_false w l :
  Forall (fun r => isCurrentRow w r = false) l
  <-> Forall (fun r => ~ spec_rowCurrent w r) l.
Proof.
  rewrite !Forall_forall. split; intros H r Hr; apply isCurrentRow_false_spec, H, Hr.
Qed.

(** C1. [getCurrent] returns the first row of today's table, in table
    order, with [row.start <= now <= row.end], both ends included, and
    nothing when no row is such.  A row from 09:00 to 09:04 is current
    exactly from 09:00:00.000 to 09:04:00.000 of the day: at 09:00:00 and at
    09:04:00, and not at 09:04:01. *)
Theorem getCurrent_first_inclusive (w : World) :
  (forall row,
      getCurrent w = Some row <->
      exists before after,
        todaySchedule w = before ++ row :: after
        /\ spec_rowCurrent w row
        /\ Forall (fun r => ~ spec_rowCurrent w r) before)
  /\ (getCurrent w = None <->
      Forall (fun r => ~ spec_rowCurrent w r) (todaySchedule w))
  /\ (forall code,
        spec_rowCurrent w (mkBellRow "09:00" "09:04" code) <->
        9 * msPerHour <= timeOfDay (zoneOffset w) (getNow w)
                      <= 9 * msPerHour + 4 * msPerMinute).
Proof.
  unfold getCurrent. split; [|split].
  - intros row. rewrite find_Some_first. split.
    + intros (l1 & l2 & E & F & H).
      exists l1, l2. rewrite <- isCurrentRow_spec, <- Forall_isCurrentRow_false. auto.
    + intros (l1 & l2 & E & F & H).
      exists l1, l2. rewrite isCurrentRow_spec, Forall_isCurrentRow_false. auto.
  - rewrite find_None_all. apply Forall_isCurrentRow_false.
  - intros code. unfold spec_rowCurrent, parseTime. simpl.
    rewrite !setHours_eq. unfold msPerHour, msPerMinute.
    split.
    + intros (s & e & [= <-] & [= <-] & Hle). lia.
    + intros H. eexists _, _. split; [reflexivity|]. split; [reflexivity|]. lia.
Qed.

(** The boundary example on a Tuesday (2025-09-02): the row from 09:00 to
    09:04 is the current one at 09:00:00 and at 09:04:00, where the next row
    starts as well; one second later the next row is. *)
Example getCurrent_at_0900 :
  getCurrent (boundaryWorld 32400000) = Some (mkBellRow "09:00" "09:04" (CodeLabel "ADVISORY")).
Proof. vm_compute. reflexivity. Qed.

Example getCurrent_at_0904 :
  getCurrent (boundaryWorld 32640000) = Some (mkBellRow "09:00" "09:04" (CodeLabel "ADVISORY")).
Proof. vm_compute. reflexivity. Qed.

Example getCurrent_at_0904_01 :
  getCurrent (boundaryWorld 32641000) = Some (mkBellRow "09:04" "10:30" (CodeArray ["A2"; "B6"])).
Proof. vm_compute. reflexivity. Qed.

Example getCurrent_at_0858 : getCurrent (boundaryWorld 32280000) = None.
Proof. vm_compute. reflexivity. Qed.

(** ** Labels *)

Lemma labelFromCode_pair w a b :
  labelFromCode w [a; b] =
    if bool_decide (a = "LUNCH") then Some a
    else match getABDay w with
         | Some RotB => Some b
         | _ => Some a
         end.
Proof.
  unfold labelFromCode. simpl.
  destruct (bool_decide (a = "LUNCH")) eqn:E.
  - apply bool_decide_eq_true in E. subst a. reflexivity.
  - apply bool_decide_eq_false in E.
    rewrite bool_decide_eq_false_2 by congruence.
    destruct (getABDay w) as [[|]|]; reflexivity.
Qed.

(** C7 as stated fails: on a B day a pair that begins with ['LUNCH'] shows
    ['LUNCH'], not its second element. *)
Lemma rowLabel_lunch_pair_counterexample :
  let w := sampleAt 20314 43200000 in
  let row := mkBellRow "12:07" "12:37" (CodeArray ["LUNCH"; "LUNCH B"]) in
  getABDay w = Some RotB
  /\ rowLabel w row = Some "LUNCH"
  /\ rowLabel w row <> Some "LUNCH B".
Proof. vm_compute. repeat split; discriminate. Qed.

(** C7, amended. A two-element code whose first element is not ['LUNCH']
    shows its first element on an A day and its second on a B day; a pair
    that begins with ['LUNCH'] shows ['LUNCH'] on either; a code that is a
    single label shows that label.  These are the labels of
    [buildPeriodStructure]. *)
Theorem rowLabel_by_rotation (w : World) (row : BellRow) :
  (forall a b,
      row_code row = CodeArray [a; b] -> a <> "LUNCH" ->
      (getABDay w = Some RotA -> rowLabel w row = Some a)
      /\ (getABDay w = Some RotB -> rowLabel w row = Some b))
  /\ (forall b, row_code row = CodeArray ["LUNCH"; b] -> rowLabel w row = Some "LUNCH")
  /\ (forall l, row_code row = CodeLabel l -> rowLabel w row = Some l)
  /\ (forall items,
        buildPeriodStructure w = Periods items ->
        map item_label items = map (rowLabel w) (todaySchedule w)).
Proof.
  unfold rowLabel. split; [|split; [|split]].
  - intros a b -> Ha. rewrite labelFromCode_pair.
    rewrite bool_decide_eq_false_2 by exact Ha.
    split; intros ->; reflexivity.
  - intros b ->. rewrite labelFromCode_pair. reflexivity.
  - intros l ->. reflexivity.
  - intros items. unfold buildPeriodStructure.
    destruct (getABDay w); [|discriminate]. intros [= <-].
    rewrite map_map. reflexivity.
Qed.

Lemma rowLabel_by_rotation_witness :
  rowLabel (sampleAt 20314 30000000) (mkBellRow "07:45" "09:04" (CodeArray ["A1"; "B5"]))
  = Some "B5".
Proof.
  apply (proj1 (rowLabel_by_rotation (sampleAt 20314 30000000)
                  (mkBellRow "07:45" "09:04" (CodeArray ["A1"; "B5"])))
           "A1" "B5" eq_refl).
  - discriminate.
  - vm_compute. reflexivity.
Defined.

(** ** Event resolver *)

Section SortByKey.
Context {A : Type} (key : A -> Z).

Let cmp (a b : A) : Z := key a - key b.
Let le (a b : A) : Prop := key a <= key b.

Lemma insertBy_Permutation (x : A) (l : list A) :
  Permutation (insertBy cmp x l) (x :: l).
Proof.
  induction l as [|y l IH]; simpl.
  - apply Permutation_refl.
  - destruct (cmp x y <=? 0).
    + apply Permutation_refl.
    + eapply perm_trans; [apply perm_skip, IH|apply perm_swap].
Qed.

Lemma sortBy_Permutation (l : list A) : Permutation (sortBy cmp l) l.
Proof.
  induction l as [|x l IH]; simpl.
  - apply perm_nil.
  - eapply perm_trans; [apply insertBy_Permutation|apply perm_skip, IH].
Qed.

Lemma insertBy_sorted (x : A) (l : list A) :
  StronglySorted le l -> StronglySorted le (insertBy cmp x l).
Proof.
  induction 1 as [|y l Hs IH Hy]; simpl.
  - repeat constructor.
  - destruct (cmp x y <=? 0) eqn:E.
    + apply Z.leb_le in E. constructor; [constructor; assumption|].
      constructor; [unfold le, cmp in *; lia|].
      eapply Forall_impl; [exact Hy|]. unfold le, cmp in *. simpl. intros; lia.
    + apply Z.leb_gt in E. constructor; [exact IH|].
      eapply Permutation_Forall; [symmetry; apply insertBy_Permutation|].
      constructor; [unfold le, cmp in *; lia|exact Hy].
Qed.

Lemma sortBy_sorted (l : list A) : StronglySorted le (sortBy cmp l).
Proof.
  induction l as [|x l IH]; simpl; [constructor|apply insertBy_sorted, IH].
Qed.

(** A sorted list is left as it is. *)
Lemma sortBy_sorted_id (l : list A) : StronglySorted le l -> sortBy cmp l = l.
Proof.
  induction 1 as [|x l Hs IH Hx]; simpl; [reflexivity|].
  rewrite IH. destruct l as [|y l]; simpl; [reflexivity|].
  inversion Hx as [|? ? Hxy _]; subst. unfold le, cmp in *.
  destruct (key x - key y <=? 0) eqn:E; [reflexivity|]. apply Z.leb_gt in E. lia.
Qed.
End SortByKey.

Lemma unix_toJSDate t : unix (toJSDate t) = unixTime t.
Proof. unfold unix, toJSDate, msPerSecond. apply Z.div_mul. lia. Qed.

Lemma isSameDay_startOfDay tz a now :
  isSameDay tz a (startOfDay tz now) = true <-> localDay tz a = localDay tz now.
Proof.
  unfold isSameDay, endOfDay, startOfDay, msPerDay.
  rewrite andb_true_iff, !Z.leb_le. lia.
Qed.

Lemma isTodaysEvent_spec tz now event :
  isTodaysEvent tz (startOfDay tz now) event = true <-> spec_eventOnDay tz now event.
Proof.
  unfold isTodaysEvent, spec_eventOnDay.
  rewrite orb_true_iff, andb_true_iff, !Z.ltb_lt, isSameDay_startOfDay. tauto.
Qed.

Lemma StronglySorted_weaken {A : Type} (R S : A -> A -> Prop) (l : list A) :
  (forall a b, R a b -> S a b) -> StronglySorted R l -> StronglySorted S l.
Proof.
  intros HRS. induction 1 as [|x l Hs IH Hx]; constructor; [exact IH|].
  eapply Forall_impl; [exact Hx|]. intros b Hb. apply HRS, Hb.
Qed.

Lemma toJSDate_le_iff a b : toJSDate a <= toJSDate b <-> unixTime a <= unixTime b.
Proof. unfold toJSDate, msPerSecond. lia. Qed.

Lemma getTodaysEvents_sorted w : StronglySorted spec_startsBefore (getTodaysEvents w).
Proof.
  unfold getTodaysEvents.
  eapply StronglySorted_weaken;
    [|exact (sortBy_sorted (fun e => unix (toJSDate (startDate e))) _)].
  intros a b H. simpl in H. rewrite !unix_toJSDate in H.
  apply toJSDate_le_iff, H.
Qed.

Lemma getTodaysEvents_Permutation w :
  Permutation (getTodaysEvents w)
    (List.filter (isTodaysEvent (zoneOffset w) (startOfDay (zoneOffset w) (getNow w)))
       (allCalendarEvents w)).
Proof. unfold getTodaysEvents. apply (sortBy_Permutation (fun e => unix (toJSDate (startDate e)))). Qed.

Lemma filter_bool_Prop {A : Type} (f : A -> bool) (P : A -> Prop)
    `{forall x, Decision (P x)} (l : list A) :
  (forall x, f x = true <-> P x) -> List.filter f l = filter P l.
Proof.
  intros Hf. induction l as [|x l IH]; [reflexivity|].
  simpl. rewrite filter_cons. destruct (f x) eqn:E.
  - rewrite decide_True by (apply Hf, E). f_equal. exact IH.
  - rewrite decide_False; [exact IH|]. rewrite <- Hf. congruence.
Qed.

(** C5. The events [getTodaysEvents] returns are the events of
    [allCalendarEvents] that start on the calendar date of [now], or start
    strictly before the start of that day and end strictly after it: each
    such event as many times as it is in the list and no other; and they
    come in ascending order of their start instants. *)
Theorem getTodaysEvents_on_day_sorted (w : World) :
  Permutation (getTodaysEvents w)
    (filter (spec_eventOnDay (zoneOffset w) (getNow w)) (allCalendarEvents w))
  /\ (forall event,
        In event (getTodaysEvents w) <->
        In event (allCalendarEvents w)
        /\ spec_eventOnDay (zoneOffset w) (getNow w) event)
  /\ StronglySorted spec_startsBefore (getTodaysEvents w).
Proof.
  assert (Permutation (getTodaysEvents w)
            (filter (spec_eventOnDay (zoneOffset w) (getNow w)) (allCalendarEvents w)))
    as HP.
  { rewrite <- (filter_bool_Prop
                  (isTodaysEvent (zoneOffset w) (startOfDay (zoneOffset w) (getNow w)))).
    - apply getTodaysEvents_Permutation.
    - intros e. apply isTodaysEvent_spec. }
  split; [exact HP|]. split; [|apply getTodaysEvents_sorted].
  intros event. rewrite <- !list_elem_of_In, HP, list_elem_of_filter. tauto.
Qed.

(** The tournament that began two days earlier is on the day, first in
    the order of starts; the concert of the next day and the fair that is
    over are not. *)
Example getTodaysEvents_sample :
  map summary (getTodaysEvents eventsWorld)
  = [Some "Tournament"; Some "Breakfast"; Some "Meeting"].
Proof. vm_compute. reflexivity. Qed.

(** X26. Sorting the events of a day again changes nothing. *)
Lemma getTodaysEvents_sort_again w :
  sortBy compareStart (getTodaysEvents w) = getTodaysEvents w.
Proof.
  apply (sortBy_sorted_id (fun e => unix (toJSDate (startDate e)))).
  unfold getTodaysEvents.
  exact (sortBy_sorted (fun e => unix (toJSDate (startDate e))) _).
Qed.

(** ** Calendar importer *)

Lemma forEach_app {A : Type} (l1 l2 : list A) (f : A -> Imp unit) (s : ImportState) :
  forEach (l1 ++ l2) f s =
    match forEach l1 f s with
    | (Normal _, s') => forEach l2 f s'
    | (Throw, s') => (Throw, s')
    end.
Proof.
  revert s. induction l1 as [|x l1 IH]; intros s; simpl; [reflexivity|].
  unfold bind. destruct (f x s) as [[[]|] s']; [apply IH|reflexivity].
Qed.


Lemma parseICSCalendar_Normal (vevents : list VEvent) :
  parseICSCalendar (Normal vevents) =
    let s := snd (forEach vevents importEvent {| abDays := ∅; allEvents := [] |}) in
    Normal (abDays s, allEvents s).
Proof.
  unfold parseICSCalendar, tryCatch, bind, liftC, ret.
  destruct (forEach vevents importEvent _) as [[[]|] s]; reflexivity.
Qed.


(** In a browser on Mountain time the all-day sentinel of 2025-08-13 is
    filed under that date. *)
Example import_key_denver :
  parseICSCalendar (rotationFeed denverOffset)
  = Normal ({[ "2025-08-13" := RotA; "2025-08-14" := RotB ]},
            [ mkCalEvent (Some "A Day") (mkICALTime 1755064800 true)
                (mkICALTime 1755151200 true) "" true;
              mkCalEvent (Some "B Day") (mkICALTime 1755151200 true)
                (mkICALTime 1755237600 true) "" true ]).
Proof. vm_compute. reflexivity. Qed.

(** C9, at the failing input. In a browser one hour ahead of UTC the
    all-day sentinel events of 2025-08-13 (A day) and 2025-08-14 (B day) are
    filed under the UTC dates of their local midnights, one day early: the
    key of the A-day event is not the key [ymd] gives for its start, and on
    2025-08-13 the classifier finds the entry of the B-day event. *)
Theorem import_key_is_utc_date :
  let w := loadCalendar cetWorld (rotationFeed cetOffset) in
  let startA := localInstant cetOffset day_2025_08_13 0 in
  ymd (zoneOffset w) startA = "2025-08-13"
  /\ calendarABDays w !! "2025-08-12" = Some RotA
  /\ calendarABDays w !! "2025-08-13" = Some RotB
  /\ calendarABDays w !! "2025-08-14" = None
  /\ ymd (zoneOffset w) (getNow w) = "2025-08-13"
  /\ getABDay w = Some RotB.
Proof. vm_compute. repeat split; reflexivity. Qed.

(** ** The zone *)

Lemma offsetFrom_bounded initial transitions t :
  boundedOffsets initial transitions = true ->
  forall off,
    Z.abs (off - initial) <= quarterDay ->
    Z.abs (offsetFrom off transitions t - initial) <= quarterDay.
Proof.
  unfold boundedOffsets. induction transitions as [|[at_ after] rest IH]; simpl.
  - auto.
  - intros H off Hoff. apply andb_true_iff in H. destruct H as [Ha Hrest].
    apply Z.leb_le in Ha. simpl in Ha.
    apply IH; [exact Hrest|]. destruct (at_ <=? t); assumption.
Qed.

Lemma localOffsetFrom_bounded initial transitions l :
  boundedOffsets initial transitions = true ->
  forall before off,
    Z.abs (off - initial) <= quarterDay ->
    Z.abs (localOffsetFrom before off transitions l - initial) <= quarterDay.
Proof.
  unfold boundedOffsets. induction transitions as [|[at_ after] rest IH]; simpl.
  - auto.
  - intros H before off Hoff. apply andb_true_iff in H. destruct H as [Ha Hrest].
    apply Z.leb_le in Ha. simpl in Ha.
    apply IH; [exact Hrest|]. destruct (_ <=? l); assumption.
Qed.

Lemma offsetAt_bounded z t : Z.abs (offsetAt z t - zone_initial z) <= quarterDay.
Proof.
  apply offsetFrom_bounded; [apply zone_bounded|]. unfold quarterDay. lia.
Qed.

Lemma offsetOfLocal_bounded z l :
  Z.abs (offsetOfLocal z l - zone_initial z) <= quarterDay.
Proof.
  apply localOffsetFrom_bounded; [apply zone_bounded|]. unfold quarterDay. lia.
Qed.

(** A step of the walk is at least half a day and at most a day and a
    half long. *)
Lemma nextDate_step z cur :
  cur + halfDay <= nextDate z cur <= cur + msPerDay + halfDay.
Proof.
  unfold nextDate, toUTC.
  pose proof (offsetAt_bounded z cur) as H1.
  pose proof (offsetOfLocal_bounded z (cur + offsetAt z cur + msPerDay)) as H2.
  unfold quarterDay, halfDay, msPerDay in *. lia.
Qed.

(** ** The counting loop *)

Lemma walkLength_next z cur d :
  cur <= d -> (walkLength (nextDate z cur) d < walkLength cur d)%nat.
Proof.
  intros H. pose proof (nextDate_step z cur) as [Hs _].
  unfold walkLength. rewrite (proj2 (Z.leb_le cur d) H).
  destruct (nextDate z cur <=? d) eqn:E; [|lia].
  apply Z.leb_le in E. apply -> Nat.succ_lt_mono.
  apply Z2Nat.inj_lt; unfold halfDay in *; divmod.
Qed.

Lemma walkLength_done cur d : d < cur -> walkLength cur d = O.
Proof.
  intros H. unfold walkLength. rewrite (proj2 (Z.leb_gt cur d) H). reflexivity.
Qed.

Lemma walkFrom_enough z d n :
  forall f1 f2 cur,
    (walkLength cur d <= n)%nat -> (n <= f1)%nat -> (n <= f2)%nat ->
    walkFrom f1 z cur d = walkFrom f2 z cur d.
Proof.
  induction n as [|n IH]; intros f1 f2 cur Hn H1 H2.
  - destruct (Z_le_gt_dec cur d) as [Hle|Hgt].
    + pose proof (walkLength_next z cur d Hle). lia.
    + destruct f1, f2; simpl; rewrite (proj2 (Z.leb_gt cur d)) by lia; reflexivity.
  - destruct (Z_le_gt_dec cur d) as [Hle|Hgt].
    + pose proof (walkLength_next z cur d Hle) as Hlt.
      destruct f1 as [|f1]; [lia|]. destruct f2 as [|f2]; [lia|].
      simpl. rewrite (proj2 (Z.leb_le cur d) Hle). f_equal. apply IH; lia.
    + destruct f1, f2; simpl; rewrite (proj2 (Z.leb_gt cur d)) by lia; reflexivity.
Qed.

Lemma spec_walk_step z cur d :
  cur <= d -> spec_walk z cur d = cur :: spec_walk z (nextDate z cur) d.
Proof.
  intros H. unfold spec_walk. pose proof (walkLength_next z cur d H) as Hlt.
  destruct (walkLength cur d) as [|n] eqn:E; [lia|].
  simpl. rewrite (proj2 (Z.leb_le cur d) H). f_equal.
  apply (walkFrom_enough z d (walkLength (nextDate z cur) d)); lia.
Qed.

Lemma spec_walk_done z cur d : d < cur -> spec_walk z cur d = [].
Proof.
  intros H. unfold spec_walk. rewrite walkLength_done by lia.
  simpl. destruct (cur <=? d); reflexivity.
Qed.

Lemma walkFrom_length z d fuel : forall cur, (length (walkFrom fuel z cur d) <= fuel)%nat.
Proof.
  induction fuel as [|fuel IH]; intros cur; simpl.
  - destruct (cur <=? d); simpl; lia.
  - destruct (cur <=? d); simpl; [|lia]. specialize (IH (nextDate z cur)). lia.
Qed.

Lemma spec_walk_length z cur d :
  (length (spec_walk z cur d) <= walkLength cur d)%nat.
Proof. apply walkFrom_length. Qed.

Lemma spec_walkCount_step w cur d :
  cur <= d ->
  spec_walkCount w cur d =
    (if isSchoolDayOnWalk w cur then 1 else 0) + spec_walkCount w (nextDate (zone w) cur) d.
Proof.
  intros H. unfold spec_walkCount. rewrite (spec_walk_step _ _ _ H). simpl.
  destruct (isSchoolDayOnWalk w cur); simpl length; lia.
Qed.

Lemma spec_walkCount_done w cur d : d < cur -> spec_walkCount w cur d = 0.
Proof. intros H. unfold spec_walkCount. rewrite spec_walk_done by lia. reflexivity. Qed.

(** What the loop returns under every bound on its iterations: nothing
    when the bound is below the number of instants of the walk, and
    otherwise the count of the school-day instants among them. *)
Lemma countLoop_exact w d fuel :
  forall cur count,
    countLoop fuel w cur d count =
      if (length (spec_walk (zone w) cur d) <=? fuel)%nat
      then Some (count + spec_walkCount w cur d)
      else None.
Proof.
  induction fuel as [|fuel IH]; intros cur count.
  - destruct (Z_le_gt_dec cur d) as [Hle|Hgt].
    + simpl countLoop. rewrite (proj2 (Z.leb_le cur d) Hle).
      rewrite (spec_walk_step _ _ _ Hle). reflexivity.
    + simpl countLoop. rewrite (proj2 (Z.leb_gt cur d)) by lia.
      rewrite spec_walk_done, spec_walkCount_done by lia. simpl. f_equal. lia.
  - destruct (Z_le_gt_dec cur d) as [Hle|Hgt].
    + simpl countLoop. rewrite (proj2 (Z.leb_le cur d) Hle).
      rewrite IH, (spec_walk_step _ _ _ Hle), (spec_walkCount_step _ _ _ Hle).
      simpl length. change (S ?a <=? S ?b)%nat with (a <=? b)%nat.
      destruct (_ <=? fuel)%nat; [|reflexivity].
      f_equal. destruct (isSchoolDayOnWalk w cur); lia.
    + simpl countLoop. rewrite (proj2 (Z.leb_gt cur d)) by lia.
      rewrite spec_walk_done, spec_walkCount_done by lia. simpl. f_equal. lia.
Qed.

(** The loop ends within [walkLength] iterations, and more fuel does not
    change what it returns. *)
Lemma countLoop_terminates w d fuel cur count :
  (walkLength cur d <= fuel)%nat ->
  countLoop fuel w cur d count = Some (count + spec_walkCount w cur d).
Proof.
  intros H. rewrite countLoop_exact.
  pose proof (spec_walk_length (zone w) cur d) as HL.
  rewrite (proj2 (Nat.leb_le _ _)) by lia. reflexivity.
Qed.

(** [getABDay] is [getABDay_fuel] at any fuel that covers the walk. *)
Lemma getABDay_fuel_enough w sd fuel :
  scheduleData w = Some sd ->
  (length (spec_walk (zone w) (schoolYear_start sd) (getNow w)) <= fuel)%nat ->
  getABDay_fuel fuel w = Some (getABDay w).
Proof.
  intros Hsd Hfuel. unfold getABDay. rewrite Hsd. unfold getABDay_fuel. rewrite Hsd.
  destruct (negb (isSchoolDay w (getNow w))); [reflexivity|].
  destruct (calendarABDays w !! ymd (zoneOffset w) (getNow w)); [reflexivity|].
  rewrite !countLoop_exact.
  pose proof (spec_walk_length (zone w) (schoolYear_start sd) (getNow w)) as HL.
  rewrite !(proj2 (Nat.leb_le _ _)) by lia. reflexivity.
Qed.

Lemma mod2_odd n : (n mod 2 =? 1) = Z.odd n.
Proof.
  rewrite Zmod_odd. destruct (Z.odd n); reflexivity.
Qed.

(** With no entry in the calendar the rotation of a school day is the
    parity of the number of school-day instants of the walk. *)
Lemma getABDay_walkCount w sd :
  scheduleData w = Some sd ->
  isSchoolDay w (getNow w) = true ->
  calendarABDays w !! ymd (zoneOffset w) (getNow w) = None ->
  getABDay w =
    Some (if Z.odd (spec_walkCount w (schoolYear_start sd) (getNow w))
          then RotA else RotB).
Proof.
  intros Hsd Hs Ho. unfold getABDay. rewrite Hsd. unfold getABDay_fuel.
  rewrite Hsd, Hs, Ho. simpl.
  rewrite (countLoop_terminates w (getNow w) _ _ 0 (Nat.le_refl _)).
  rewrite Z.add_0_l, mod2_odd. reflexivity.
Qed.

Lemma isSchoolDay_spec_schoolDate w sd cur :
  scheduleData w = Some sd ->
  schoolYear_start sd <= cur <= schoolYear_end sd ->
  isSchoolDay w cur = spec_schoolDate sd (localDay (zoneOffset w) cur).
Proof.
  intros Hsd [H1 H2]. unfold isSchoolDay, spec_schoolDate, isWeekend, getDay, ymd.
  rewrite Hsd. rewrite (proj2 (Z.leb_le _ _) H1), (proj2 (Z.leb_le _ _) H2). simpl.
  f_equal. f_equal. apply bool_decide_ext. apply elem_of_list_to_set.
Qed.

Lemma spec_schoolDayCount_empty sd first last :
  last < first -> spec_schoolDayCount sd first last = 0.
Proof.
  intros H. unfold spec_schoolDayCount. rewrite seqZ_nil by lia. reflexivity.
Qed.

Lemma spec_schoolDayCount_first sd first last :
  first <= last ->
  spec_schoolDayCount sd first last =
    (if spec_schoolDate sd first then 1 else 0) + spec_schoolDayCount sd (first + 1) last.
Proof.
  intros H. unfold spec_schoolDayCount. rewrite seqZ_cons by lia. simpl.
  replace (Z.pred (last - first + 1)) with (last - (first + 1) + 1) by lia.
  replace (Z.succ first) with (first + 1) by lia.
  destruct (spec_schoolDate sd first); simpl length; lia.
Qed.

Lemma spec_schoolDayCount_nonneg sd first last : 0 <= spec_schoolDayCount sd first last.
Proof. unfold spec_schoolDayCount. lia. Qed.

Lemma spec_schoolDayCount_split sd first mid last :
  first <= mid + 1 -> mid <= last ->
  spec_schoolDayCount sd first last =
    spec_schoolDayCount sd first mid + spec_schoolDayCount sd (mid + 1) last.
Proof.
  intros H1 H2. unfold spec_schoolDayCount.
  replace (last - first + 1) with ((mid - first + 1) + (last - (mid + 1) + 1)) by lia.
  rewrite seqZ_app by lia. rewrite List.filter_app, length_app.
  replace (first + (mid - first + 1)) with (mid + 1) by lia. lia.
Qed.

Lemma spec_schoolDayCount_last sd first last :
  first <= last ->
  spec_schoolDayCount sd first last =
    spec_schoolDayCount sd first (last - 1) + (if spec_schoolDate sd last then 1 else 0).
Proof.
  intros H. rewrite (spec_schoolDayCount_split sd first (last - 1) last) by lia.
  f_equal. replace (last - 1 + 1) with last by lia.
  rewrite spec_schoolDayCount_first by lia.
  rewrite spec_schoolDayCount_empty by lia. lia.
Qed.

Lemma isSchoolDay_schoolDate w sd d :
  scheduleData w = Some sd ->
  isSchoolDay w d = true ->
  spec_schoolDate sd (localDay (zoneOffset w) d) = true.
Proof.
  intros Hsd Hs.
  pose proof (proj1 (isSchoolDay_spec w sd _ Hsd) Hs) as (Hr & _).
  rewrite <- (isSchoolDay_spec_schoolDate w sd d Hsd Hr). exact Hs.
Qed.

(** ** Whole dates *)

Lemma midnightOf_local z day :
  spec_midnightExists z day ->
  midnightOf z day + offsetAt z (midnightOf z day) = day * msPerDay.
Proof. unfold spec_midnightExists, midnightOf, toUTC. intros ->. lia. Qed.

Lemma midnightOf_next z day :
  spec_midnightExists z day ->
  nextDate z (midnightOf z day) = midnightOf z (day + 1).
Proof.
  intros H. unfold nextDate. rewrite (midnightOf_local z day H).
  unfold midnightOf. f_equal. lia.
Qed.

Lemma midnightOf_mono z first last :
  (forall day, first <= day <= last -> spec_midnightExists z day) ->
  forall n a, first <= a -> a + Z.of_nat n <= last + 1 ->
    midnightOf z a <= midnightOf z (a + Z.of_nat n).
Proof.
  intros H. induction n as [|n IH]; intros a Ha Hb.
  - replace (a + Z.of_nat 0) with a by lia. lia.
  - replace (a + Z.of_nat (S n)) with ((a + Z.of_nat n) + 1) by lia.
    rewrite <- midnightOf_next by (apply H; lia).
    pose proof (nextDate_step z (midnightOf z (a + Z.of_nat n))) as [Hs _].
    specialize (IH a Ha ltac:(lia)). unfold halfDay in *. lia.
Qed.

Lemma midnightOf_le z first last a b :
  (forall day, first <= day <= last -> spec_midnightExists z day) ->
  first <= a -> a <= b -> b <= last + 1 ->
  midnightOf z a <= midnightOf z b.
Proof.
  intros H Ha Hab Hb.
  replace b with (a + Z.of_nat (Z.to_nat (b - a))) by lia.
  apply (midnightOf_mono z first last H); lia.
Qed.

Lemma isSchoolDayOnWalk_midnight w sd day :
  scheduleData w = Some sd ->
  spec_midnightExists (zone w) day ->
  schoolYear_start sd <= midnightOf (zone w) day <= schoolYear_end sd ->
  isSchoolDayOnWalk w (midnightOf (zone w) day) = spec_schoolDate sd day.
Proof.
  intros Hsd Hex Hrange. unfold isSchoolDayOnWalk.
  rewrite (isSchoolDay_spec_schoolDate
             (withOffset w (offsetAt (zone w) (midnightOf (zone w) day))) sd _ Hsd Hrange).
  f_equal. unfold localDay, localTime. simpl.
  rewrite (midnightOf_local _ _ Hex). apply Z.div_mul. unfold msPerDay. lia.
Qed.

(** Over whole dates the walk from the midnight of a date visits the
    midnights of the dates through [today], and counts the school dates
    among them. *)
Lemma spec_walk_whole w sd first today now :
  scheduleData w = Some sd ->
  schoolYear_start sd = midnightOf (zone w) first ->
  spec_wholeDates (zone w) first today now ->
  now <= schoolYear_end sd ->
  forall n day,
    first <= day -> Z.of_nat n = today + 1 - day ->
    spec_walkCount w (midnightOf (zone w) day) now = spec_schoolDayCount sd day today
    /\ length (spec_walk (zone w) (midnightOf (zone w) day) now) = n.
Proof.
  intros Hsd Hstart (Hft & Hex & Hlo & Hhi) Hend.
  induction n as [|n IH]; intros day Hday Hn.
  - replace day with (today + 1) by lia.
    rewrite spec_walkCount_done, spec_walk_done, spec_schoolDayCount_empty by lia.
    auto.
  - assert (midnightOf (zone w) day <= now) as Hle.
    { pose proof (midnightOf_le (zone w) first today day today Hex). lia. }
    assert (schoolYear_start sd <= midnightOf (zone w) day) as Hge.
    { rewrite Hstart. apply (midnightOf_le (zone w) first today); [exact Hex|lia..]. }
    destruct (IH (day + 1) ltac:(lia) ltac:(lia)) as [IHc IHl].
    rewrite (spec_walkCount_step _ _ _ Hle), (spec_walk_step _ _ _ Hle).
    rewrite (midnightOf_next _ _ (Hex day ltac:(lia))), IHc. simpl length. rewrite IHl.
    split; [|reflexivity].
    rewrite (isSchoolDayOnWalk_midnight w sd day Hsd (Hex day ltac:(lia))) by lia.
    rewrite (spec_schoolDayCount_first sd day today) by lia. reflexivity.
Qed.

(** With the year starting at a local midnight and whole dates up to
    [now], the rotation of a school day with no entry in the calendar is
    the parity of the number of school dates from the first date through
    the date of [now]. *)
Lemma getABDay_midnight_count w sd first :
  scheduleData w = Some sd ->
  schoolYear_start sd = midnightOf (zone w) first ->
  spec_wholeDates (zone w) first (localDay (zoneOffset w) (getNow w)) (getNow w) ->
  isSchoolDay w (getNow w) = true ->
  calendarABDays w !! ymd (zoneOffset w) (getNow w) = None ->
  getABDay w =
    Some (if Z.odd (spec_schoolDayCount sd first (localDay (zoneOffset w) (getNow w)))
          then RotA else RotB).
Proof.
  intros Hsd Hstart Hwhole Hs Ho. pose proof (proj1 Hwhole) as Hft.
  pose proof (proj1 (isSchoolDay_spec w sd _ Hsd) Hs) as ([Hge Hle] & _).
  rewrite (getABDay_walkCount w sd Hsd Hs Ho), Hstart.
  destruct (spec_walk_whole w sd first _ _ Hsd Hstart Hwhole Hle
              (Z.to_nat (localDay (zoneOffset w) (getNow w) + 1 - first)) first
              ltac:(lia) ltac:(lia)) as [Hc _].
  rewrite Hc. reflexivity.
Qed.

(** C3 as stated fails: with the year starting at eight in the morning of
    2025-08-13, seven in the morning of 2025-08-14 is a school-day instant
    with two school dates from the start through it, and its rotation is
    ['A'], the rotation of the day before as well. *)
Lemma getABDay_late_start_counterexample :
  let w := lateStartWorld in
  let yesterday := atInstant w (localInstant denverOffset day_2025_08_13 32400000) in
  isSchoolDay w (getNow w) = true
  /\ calendarABDays w !! ymd (zoneOffset w) (getNow w) = None
  /\ spec_schoolDayCount lateStartData
       (localDay (zoneOffset w) (schoolYear_start lateStartData))
       (localDay (zoneOffset w) (getNow w)) = 2
  /\ getABDay w = Some RotA
  /\ isSchoolDay yesterday (getNow yesterday) = true
  /\ getABDay yesterday = Some RotA.
Proof. vm_compute. repeat split; reflexivity. Qed.

(** C3, amended. When [config.start] is the local midnight that begins a
    date, every date from that one through the date of the instant has its
    local midnight in the browser's zone, and the instant lies between the
    midnight of its date and the next: on a school day with no entry in the
    calendar [getABDay] returns ['A'] exactly when the number of school
    dates (not a weekend day, not an off-day) among the calendar dates from
    that of [config.start] through that of the instant is odd, and ['B']
    exactly when it is even; so the first school day of the year is ['A'],
    and of two school days with no school date between them one is ['A']
    and the other ['B']. *)
Theorem getABDay_parity_of_school_dates (w : World) (sd : ScheduleData) (first : Z) :
  scheduleData w = Some sd ->
  schoolYear_start sd = midnightOf (zone w) first ->
  spec_wholeDates (zone w) first (localDay (zoneOffset w) (getNow w)) (getNow w) ->
  isSchoolDay w (getNow w) = true ->
  calendarABDays w !! ymd (zoneOffset w) (getNow w) = None ->
  (getABDay w = Some RotA <->
     Z.odd (spec_schoolDayCount sd first (localDay (zoneOffset w) (getNow w))) = true)
  /\ (getABDay w = Some RotB <->
        Z.even (spec_schoolDayCount sd first (localDay (zoneOffset w) (getNow w))) = true)
  /\ (spec_schoolDayCount sd first (localDay (zoneOffset w) (getNow w) - 1) = 0 ->
      getABDay w = Some RotA)
  /\ (forall w',
        scheduleData w' = Some sd ->
        zone w' = zone w ->
        spec_wholeDates (zone w) first (localDay (zoneOffset w') (getNow w')) (getNow w') ->
        isSchoolDay w' (getNow w') = true ->
        calendarABDays w' !! ymd (zoneOffset w') (getNow w') = None ->
        localDay (zoneOffset w) (getNow w) < localDay (zoneOffset w') (getNow w') ->
        spec_schoolDayCount sd (localDay (zoneOffset w) (getNow w) + 1)
          (localDay (zoneOffset w') (getNow w') - 1) = 0 ->
        (getABDay w = Some RotA /\ getABDay w' = Some RotB)
        \/ (getABDay w = Some RotB /\ getABDay w' = Some RotA)).
Proof.
  intros Hsd Hstart Hwhole Hs Ho.
  pose proof (getABDay_midnight_count w sd first Hsd Hstart Hwhole Hs Ho) as HG.
  pose proof (proj1 Hwhole) as Hdays.
  pose proof (isSchoolDay_schoolDate w sd _ Hsd Hs) as Hdate.
  set (today := localDay (zoneOffset w) (getNow w)) in *.
  split; [|split; [|split]].
  - rewrite HG. destruct (Z.odd _); split; congruence.
  - rewrite HG, <- Z.negb_odd. destruct (Z.odd _); simpl; split; congruence.
  - intros H0. rewrite HG.
    rewrite (spec_schoolDayCount_last sd first today Hdays), H0, Hdate. reflexivity.
  - intros w' Hsd' Hz Hwhole' Hs' Ho' Hlt Hbetween.
    rewrite <- Hz in Hwhole'.
    assert (schoolYear_start sd = midnightOf (zone w') first) as Hstart'
      by (rewrite Hz; exact Hstart).
    pose proof (getABDay_midnight_count w' sd first Hsd' Hstart' Hwhole' Hs' Ho') as HG'.
    pose proof (isSchoolDay_schoolDate w' sd _ Hsd' Hs') as Hdate'.
    set (later := localDay (zoneOffset w') (getNow w')) in *.
    rewrite (spec_schoolDayCount_split sd first today later) in HG' by lia.
    rewrite (spec_schoolDayCount_last sd (today + 1) later) in HG' by lia.
    rewrite Hbetween, Hdate' in HG'. rewrite HG, HG'.
    replace (spec_schoolDayCount sd first today + (0 + 1))
      with (Z.succ (spec_schoolDayCount sd first today)) by lia.
    rewrite Z.odd_succ, <- Z.negb_odd.
    destruct (Z.odd (spec_schoolDayCount sd first today)); simpl; auto.
Qed.

(** 2025-08-14, the second school day of the sample year, is a B day. *)
Lemma getABDay_parity_of_school_dates_witness :
  getABDay (sampleAt (day_2025_08_13 + 1) 30000000) = Some RotB.
Proof.
  destruct (getABDay_parity_of_school_dates
              (sampleAt (day_2025_08_13 + 1) 30000000) sampleData day_2025_08_13 eq_refl)
    as (_ & HB & _).
  - vm_compute. reflexivity.
  - assert (localDay (zoneOffset (sampleAt (day_2025_08_13 + 1) 30000000))
              (getNow (sampleAt (day_2025_08_13 + 1) 30000000)) = 20314) as ->
      by (vm_compute; reflexivity).
    unfold day_2025_08_13. split; [lia|]. split.
    + intros day Hday.
      assert (day = 20313 \/ day = 20314) as [-> | ->] by lia;
        vm_compute; reflexivity.
    + vm_compute. split; [discriminate|reflexivity].
  - vm_compute. reflexivity.
  - vm_compute. reflexivity.
  - apply HB. vm_compute. reflexivity.
Defined.

Lemma midnightExistsb_spec z day :
  midnightExistsb z day = true <-> spec_midnightExists z day.
Proof. unfold midnightExistsb, spec_midnightExists. apply Z.eqb_eq. Qed.

(** Across the change to standard time: at 23:30 of Monday 2025-12-01 in
    Denver, the 78th school date of the sample year, the walk has visited
    the local midnights of 111 dates and the rotation is ['B']. *)
Example getABDay_december :
  ymd denverWinterOffset 1764657000000 = "2025-12-01"
  /\ spec_schoolDayCount sampleData day_2025_08_13
       (localDay denverWinterOffset 1764657000000) = 78
  /\ length (spec_walk denverZone (schoolYear_start sampleData) 1764657000000) = 111%nat
  /\ getABDay (sampleWinterAt 1764657000000) = Some RotB.
Proof. vm_compute. repeat split; reflexivity. Qed.

(** * Further properties of the script *)

(** ** The next period *)

Lemma dateLt_spec w row :
  dateLt (getNow w) (parseTime w (row_start row)) = true <-> spec_rowStartsAfter w row.
Proof.
  unfold dateLt, spec_rowStartsAfter.
  destruct (parseTime w (row_start row)) as [s|].
  - rewrite Z.ltb_lt. split; [eauto|]. intros (s' & [= <-] & H). exact H.
  - split; [discriminate|]. intros (s' & H & _). discriminate.
Qed.

(** X1. [getNext] returns the first row of today's table, in table order,
    whose start is strictly after [now], and nothing when no row starts
    later. *)
Theorem getNext_first_strictly_after (w : World) :
  (forall row,
      getNext w = Some row <->
      exists before after,
        todaySchedule w = before ++ row :: after
        /\ spec_rowStartsAfter w row
        /\ Forall (fun r => ~ spec_rowStartsAfter w r) before)
  /\ (getNext w = None <->
      Forall (fun r => ~ spec_rowStartsAfter w r) (todaySchedule w)).
Proof.
  assert (forall l,
             Forall (fun r => dateLt (getNow w) (parseTime w (row_start r)) = false) l
             <-> Forall (fun r => ~ spec_rowStartsAfter w r) l) as HF.
  { intros l. rewrite !Forall_forall. split; intros H r Hr; specialize (H r Hr).
    - rewrite <- dateLt_spec. congruence.
    - rewrite <- dateLt_spec in H. destruct (dateLt _ _); congruence. }
  unfold getNext. split.
  - intros row. rewrite find_Some_first. split.
    + intros (l1 & l2 & E & F & H). exists l1, l2.
      rewrite <- dateLt_spec, <- HF. auto.
    + intros (l1 & l2 & E & F & H). exists l1, l2.
      rewrite dateLt_spec, HF. auto.
  - rewrite find_None_all. apply HF.
Qed.

Lemma getCurrent_Some_current w row :
  getCurrent w = Some row -> spec_rowCurrent w row.
Proof.
  unfold getCurrent. rewrite find_Some_first.
  intros (l1 & l2 & _ & F & _). apply isCurrentRow_spec, F.
Qed.

(** X2. The row [getNext] returns is not current: it is not the row
    [getCurrent] returns, and a row that starts exactly at [now] is not
    next. *)
Theorem getNext_not_current (w : World) (row : BellRow) :
  getNext w = Some row ->
  ~ spec_rowCurrent w row
  /\ getCurrent w <> Some row
  /\ parseTime w (row_start row) <> Some (getNow w).
Proof.
  intros H. apply (proj1 (getNext_first_strictly_after w)) in H.
  destruct H as (l1 & l2 & _ & (s & Hs & Hlt) & _).
  assert (~ spec_rowCurrent w row) as Hn.
  { intros (s' & e & Hs' & _ & Hle). rewrite Hs in Hs'. injection Hs' as <-. lia. }
  split; [exact Hn|]. split.
  - intros Hc. apply Hn, getCurrent_Some_current, Hc.
  - rewrite Hs. intros [= E]. lia.
Qed.

(** At 09:00 the row from 09:04 is the next one, so not the current one. *)
Lemma getNext_not_current_witness :
  getCurrent (boundaryWorld 32400000)
  <> Some (mkBellRow "09:04" "10:30" (CodeArray ["A2"; "B6"])).
Proof.
  apply (getNext_not_current (boundaryWorld 32400000)). vm_compute. reflexivity.
Defined.

(** ** Reading the times of the table *)

Lemma split_no_sep sep s : hasChar sep s = false -> split sep s = [s].
Proof.
  induction s as [|c s IH]; simpl; [reflexivity|].
  intros H. apply orb_false_iff in H. destruct H as [Hc Hs].
  rewrite Hc, (IH Hs). reflexivity.
Qed.

Lemma split_append sep a b :
  hasChar sep a = false -> split sep (a +:+ String sep b) = a :: split sep b.
Proof.
  induction a as [|c a IH]; simpl.
  - intros _. rewrite Ascii.eqb_refl. reflexivity.
  - intros H. apply orb_false_iff in H. destruct H as [Hc Ha].
    rewrite Hc, (IH Ha). reflexivity.
Qed.

Lemma Number_pad2_table :
  forallb (fun n =>
      bool_decide (Number (padStart0 2 (string_of_Z n)) = Some n)
      && negb (hasChar ":" (padStart0 2 (string_of_Z n))))
    (seqZ 0 60) = true.
Proof. vm_compute. reflexivity. Qed.

Lemma Number_pad2 n :
  0 <= n < 60 ->
  Number (padStart0 2 (string_of_Z n)) = Some n
  /\ hasChar ":" (padStart0 2 (string_of_Z n)) = false.
Proof.
  intros Hn. pose proof Number_pad2_table as T. rewrite forallb_forall in T.
  specialize (T n). rewrite <- list_elem_of_In, elem_of_seqZ in T.
  specialize (T ltac:(lia)). apply andb_true_iff in T. destruct T as [T1 T2].
  apply bool_decide_eq_true in T1. apply negb_true_iff in T2. auto.
Qed.

Lemma parse_hhmmText h m :
  0 <= h < 24 -> 0 <= m < 60 ->
  map Number (split ":" (hhmmText h m)) = [Some h; Some m].
Proof.
  intros Hh Hm. destruct (Number_pad2 h ltac:(lia)) as [Nh Ch].
  destruct (Number_pad2 m Hm) as [Nm Cm].
  unfold hhmmText. change (":" +:+ padStart0 2 (string_of_Z m))
    with (String ":" (padStart0 2 (string_of_Z m))).
  rewrite (split_append _ _ _ Ch), (split_no_sep _ _ Cm). simpl.
  rewrite Nh, Nm. reflexivity.
Qed.

(** X3. For every hour from 0 to 23 and minute from 0 to 59, [parseTime]
    of the text ["HH:MM"] is the instant of the local day of [now] with
    that time of day, whatever the time of day of [now] is. *)
Theorem parseTime_hhmm_today (w : World) (h m : Z) :
  0 <= h < 24 -> 0 <= m < 60 ->
  exists t,
    parseTime w (hhmmText h m) = Some t
    /\ localDay (zoneOffset w) t = localDay (zoneOffset w) (getNow w)
    /\ timeOfDay (zoneOffset w) t = h * msPerHour + m * msPerMinute.
Proof.
  intros Hh Hm. unfold parseTime. rewrite (parse_hhmmText h m Hh Hm).
  eexists. split; [reflexivity|].
  pose proof (localTime_split (zoneOffset w) (getNow w)) as S.
  pose proof (timeOfDay_range (zoneOffset w) (getNow w)) as R.
  rewrite setHours_eq. unfold localDay, timeOfDay, localTime in *.
  unfold msPerDay, msPerHour, msPerMinute in *. split; divmod.
Qed.

Lemma parseTime_hhmm_today_witness :
  exists t,
    parseTime (sampleAt 20333 50000000) (hhmmText 9 4) = Some t
    /\ localDay denverOffset t = 20333
    /\ timeOfDay denverOffset t = 32640000.
Proof.
  destruct (parseTime_hhmm_today (sampleAt 20333 50000000) 9 4) as (t & H1 & H2 & H3);
    [lia|lia|].
  exists t. split; [exact H1|]. split; [|exact H3].
  etransitivity; [exact H2|]. vm_compute. reflexivity.
Defined.

(** X4. A time text without a colon reads as an invalid date; a row whose
    start is such a text is neither current nor next at any instant, and a
    row whose end is such a text is never current. *)
Theorem parseTime_no_colon (w : World) (hm : string) :
  hasChar ":" hm = false ->
  parseTime w hm = None
  /\ (forall row, row_start row = hm ->
        isCurrentRow w row = false /\ ~ spec_rowStartsAfter w row)
  /\ (forall row, row_end row = hm -> isCurrentRow w row = false).
Proof.
  intros H.
  assert (parseTime w hm = None) as HP.
  { unfold parseTime. rewrite (split_no_sep _ _ H). simpl.
    destruct (Number hm); reflexivity. }
  split; [exact HP|]. split.
  - intros row <-. split.
    + unfold isCurrentRow. rewrite HP. reflexivity.
    + intros (s & Hs & _). congruence.
  - intros row <-. unfold isCurrentRow. rewrite HP. apply andb_false_r.
Qed.

Lemma parseTime_no_colon_witness :
  parseTime (sampleAt 20333 32640000) "0904" = None.
Proof.
  apply (parseTime_no_colon (sampleAt 20333 32640000) "0904"). reflexivity.
Defined.

(** ** Rotation *)

(** X5. With no configuration loaded nothing is shown as school: no
    instant is a school day, the rotation is [null], today's table is
    empty, no row is current or next, and the period view is the no-school
    one. *)
Theorem no_scheduleData_no_school (w : World) :
  scheduleData w = None ->
  (forall d, isSchoolDay w d = false)
  /\ getABDay w = None
  /\ todaySchedule w = []
  /\ getCurrent w = None
  /\ getNext w = None
  /\ classesForDay w = []
  /\ buildPeriodStructure w = NoSchool
  /\ renderPeriods w = None.
Proof.
  intros H.
  assert (getABDay w = None) as HG by (unfold getABDay; rewrite H; reflexivity).
  assert (todaySchedule w = []) as HT by (unfold todaySchedule; rewrite H; reflexivity).
  repeat split.
  - intros d. unfold isSchoolDay. rewrite H. reflexivity.
  - exact HG.
  - exact HT.
  - unfold getCurrent. rewrite HT. reflexivity.
  - unfold getNext. rewrite HT. reflexivity.
  - unfold classesForDay. rewrite HG. reflexivity.
  - unfold buildPeriodStructure. rewrite HG. reflexivity.
  - unfold renderPeriods, buildPeriodStructure. rewrite HG. reflexivity.
Qed.

Lemma no_scheduleData_no_school_witness :
  renderPeriods (initialWorld 1755064800000 denverOffset) = None.
Proof.
  apply (no_scheduleData_no_school (initialWorld 1755064800000 denverOffset)).
  reflexivity.
Defined.

Lemma getABDay_school_day w :
  isSchoolDay w (getNow w) = true -> exists r, getABDay w = Some r.
Proof.
  intros Hs. destruct (isSchoolDay_has_data _ _ Hs) as [sd Hsd].
  destruct (calendarABDays w !! ymd (zoneOffset w) (getNow w)) as [r|] eqn:Ho.
  - exists r. unfold getABDay, getABDay_fuel. rewrite Hsd, Hs, Ho. reflexivity.
  - rewrite (getABDay_walkCount w sd Hsd Hs Ho). eauto.
Qed.

(** X6. The rotation is [null] exactly at the instants that are not school
    days; these are the instants at which the period view is the no-school
    one. *)
Theorem getABDay_null_iff_not_school_day (w : World) :
  (getABDay w = None <-> isSchoolDay w (getNow w) = false)
  /\ (buildPeriodStructure w = NoSchool <-> isSchoolDay w (getNow w) = false)
  /\ (renderPeriods w = None <-> isSchoolDay w (getNow w) = false).
Proof.
  assert (getABDay w = None <-> isSchoolDay w (getNow w) = false) as HG.
  { split.
    - intros H. destruct (isSchoolDay w (getNow w)) eqn:E; [|reflexivity].
      destruct (getABDay_school_day w E) as [r Hr]. congruence.
    - apply getABDay_not_school. }
  split; [exact HG|].
  unfold renderPeriods, buildPeriodStructure. rewrite <- HG.
  destruct (getABDay w); split; split; intros; congruence.
Qed.

Lemma getABDay_of_override w r :
  isSchoolDay w (getNow w) = true ->
  calendarABDays w !! ymd (zoneOffset w) (getNow w) = Some r ->
  getABDay w = Some r.
Proof.
  intros Hs Ho. destruct (isSchoolDay_has_data _ _ Hs) as [sd Hsd].
  unfold getABDay, getABDay_fuel. rewrite Hsd, Hs, Ho. reflexivity.
Qed.

(** X7. With the year starting at a local midnight and whole dates in
    the zone, the rotation does not change during a day: two school-day
    instants of the same local date, under the same configuration, zone and
    calendar, have the same rotation. *)
Theorem getABDay_same_day (w w' : World) (sd : ScheduleData) (first : Z) :
  scheduleData w = Some sd ->
  scheduleData w' = Some sd ->
  zone w' = zone w ->
  calendarABDays w' = calendarABDays w ->
  schoolYear_start sd = midnightOf (zone w) first ->
  spec_wholeDates (zone w) first (localDay (zoneOffset w) (getNow w)) (getNow w) ->
  spec_wholeDates (zone w) first (localDay (zoneOffset w') (getNow w')) (getNow w') ->
  isSchoolDay w (getNow w) = true ->
  isSchoolDay w' (getNow w') = true ->
  localDay (zoneOffset w') (getNow w') = localDay (zoneOffset w) (getNow w) ->
  getABDay w' = getABDay w.
Proof.
  intros Hsd Hsd' Hz Hcal Hstart Hwhole Hwhole' Hs Hs' Hday.
  assert (ymd (zoneOffset w') (getNow w') = ymd (zoneOffset w) (getNow w)) as Hymd
    by (unfold ymd; rewrite Hday; reflexivity).
  destruct (calendarABDays w !! ymd (zoneOffset w) (getNow w)) as [r|] eqn:Ho.
  - rewrite (getABDay_of_override w r Hs Ho).
    apply getABDay_of_override; [exact Hs'|]. rewrite Hcal, Hymd. exact Ho.
  - rewrite (getABDay_midnight_count w sd first Hsd Hstart Hwhole Hs Ho).
    rewrite <- Hz in Hwhole', Hstart.
    rewrite (getABDay_midnight_count w' sd first Hsd' Hstart Hwhole' Hs').
    + rewrite Hday. reflexivity.
    + rewrite Hcal, Hymd. exact Ho.
Qed.

(** Monday 2025-12-01 in Denver, after the change to standard time, at
    10:00 and at 23:30. *)
Lemma getABDay_same_day_witness :
  getABDay (sampleWinterAt 1764657000000) = getABDay (sampleWinterAt 1764608400000).
Proof.
  assert (forall d,
             midnightOf denverZone 20423 <= d < midnightOf denverZone 20424 ->
             localDay denverWinterOffset d = 20423 ->
             spec_wholeDates denverZone day_2025_08_13 20423 d) as Hwhole.
  { intros d Hd Hday. split; [unfold day_2025_08_13; lia|]. split; [|exact Hd].
    intros day Hrange. apply midnightExistsb_spec.
    assert (forallb (midnightExistsb denverZone) (seqZ day_2025_08_13 111) = true) as T
      by (vm_compute; reflexivity).
    rewrite forallb_forall in T. apply T, list_elem_of_In, elem_of_seqZ.
    unfold day_2025_08_13 in *. lia. }
  apply (getABDay_same_day (sampleWinterAt 1764608400000) (sampleWinterAt 1764657000000)
           sampleData day_2025_08_13);
    try (vm_compute; reflexivity);
    (apply Hwhole;
     [vm_compute; split; [discriminate|reflexivity] | vm_compute; reflexivity]).
Defined.

Lemma spec_walk_iter z d n :
  forall cur,
    length (spec_walk z cur d) = n ->
    (forall i x,
        spec_walk z cur d !! i = Some x ->
        x = Nat.iter i (nextDate z) cur /\ x <= d)
    /\ d < Nat.iter n (nextDate z) cur.
Proof.
  induction n as [|n IH]; intros cur Hlen.
  - destruct (Z_le_gt_dec cur d) as [Hle|Hgt].
    + rewrite (spec_walk_step _ _ _ Hle) in Hlen. discriminate.
    + rewrite spec_walk_done by lia. simpl. split; [|lia].
      intros i x H. rewrite lookup_nil in H. discriminate.
  - destruct (Z_le_gt_dec cur d) as [Hle|Hgt].
    + rewrite (spec_walk_step _ _ _ Hle) in *. injection Hlen as Hlen.
      destruct (IH _ Hlen) as [IH1 IH2]. split.
      * intros [|i] x H; simpl in H.
        -- injection H as <-. simpl. lia.
        -- rewrite Nat.iter_succ_r. apply IH1, H.
      * rewrite Nat.iter_succ_r. exact IH2.
    + rewrite spec_walk_done in Hlen by lia. discriminate.
Qed.

(** X8. Whatever the time of day of [config.start], on a school day with
    no entry in the calendar the rotation is ['A'] when the number of
    school-day instants among the instants the loop visits is odd, and
    ['B'] when it is even.  The instants are [start] and then, each time,
    the same local time on the next calendar date in the browser's zone,
    as long as that is not after [now]; each is judged a school day by its
    own local date. *)
Theorem getABDay_parity_of_walk (w : World) (sd : ScheduleData) :
  scheduleData w = Some sd ->
  isSchoolDay w (getNow w) = true ->
  calendarABDays w !! ymd (zoneOffset w) (getNow w) = None ->
  getABDay w =
    Some (if Z.odd (spec_walkCount w (schoolYear_start sd) (getNow w))
          then RotA else RotB)
  /\ (forall i x,
        spec_walk (zone w) (schoolYear_start sd) (getNow w) !! i = Some x ->
        x = Nat.iter i (nextDate (zone w)) (schoolYear_start sd) /\ x <= getNow w)
  /\ getNow w
     < Nat.iter (length (spec_walk (zone w) (schoolYear_start sd) (getNow w)))
         (nextDate (zone w)) (schoolYear_start sd).
Proof.
  intros Hsd Hs Ho. split; [apply (getABDay_walkCount w sd Hsd Hs Ho)|].
  apply spec_walk_iter. reflexivity.
Qed.

(** With the year starting at eight, seven in the morning of the second
    day has one instant of the walk behind it. *)
Lemma getABDay_parity_of_walk_witness :
  getABDay lateStartWorld = Some RotA.
Proof.
  destruct (getABDay_parity_of_walk lateStartWorld lateStartData eq_refl) as [H _].
  - vm_compute. reflexivity.
  - vm_compute. reflexivity.
  - rewrite H. vm_compute. reflexivity.
Defined.

(** X9. The counting loop ends after exactly as many iterations as the
    walk has instants: under a bound of at least that many iterations it
    returns the count, and [getABDay] is that result; under a smaller bound
    it does not finish.  The number is at most two for each day from
    [start] to [now], and over whole dates from a midnight start it is one
    for each calendar date from that of [start] through that of [now]. *)
Theorem getABDay_loop_ends (w : World) (sd : ScheduleData) (fuel : nat) :
  scheduleData w = Some sd ->
  ((length (spec_walk (zone w) (schoolYear_start sd) (getNow w)) <= fuel)%nat ->
   countLoop fuel w (schoolYear_start sd) (getNow w) 0
   = Some (spec_walkCount w (schoolYear_start sd) (getNow w))
   /\ getABDay_fuel fuel w = Some (getABDay w))
  /\ ((fuel < length (spec_walk (zone w) (schoolYear_start sd) (getNow w)))%nat ->
      countLoop fuel w (schoolYear_start sd) (getNow w) 0 = None)
  /\ (length (spec_walk (zone w) (schoolYear_start sd) (getNow w))
      <= walkLength (schoolYear_start sd) (getNow w))%nat
  /\ (forall first today,
        schoolYear_start sd = midnightOf (zone w) first ->
        spec_wholeDates (zone w) first today (getNow w) ->
        getNow w <= schoolYear_end sd ->
        Z.of_nat (length (spec_walk (zone w) (schoolYear_start sd) (getNow w)))
        = today - first + 1).
Proof.
  intros Hsd. split; [|split; [|split]].
  - intros Hfuel. split; [|apply (getABDay_fuel_enough w sd fuel Hsd Hfuel)].
    rewrite countLoop_exact, (proj2 (Nat.leb_le _ _) Hfuel). reflexivity.
  - intros Hfuel. rewrite countLoop_exact.
    rewrite (proj2 (Nat.leb_gt _ _)) by lia. reflexivity.
  - apply spec_walk_length.
  - intros first today Hstart Hwhole Hend.
    destruct (spec_walk_whole w sd first today _ Hsd Hstart Hwhole Hend
                (Z.to_nat (today + 1 - first)) first) as [_ Hl].
    + lia.
    + destruct Hwhole as [Hft _]. lia.
    + rewrite Hstart, Hl. destruct Hwhole as [Hft _]. lia.
Qed.

(** At 08:20 of 2025-08-14 the walk has two instants: a bound of one
    iteration does not finish the loop. *)
Lemma getABDay_loop_ends_witness :
  countLoop 1 (sampleAt 20314 30000000) (schoolYear_start sampleData)
    (getNow (sampleAt 20314 30000000)) 0 = None.
Proof.
  apply (proj1 (proj2 (getABDay_loop_ends (sampleAt 20314 30000000) sampleData 1 eq_refl))).
  vm_compute. lia.
Defined.

(** ** Classes and the period structure *)

Lemma findClassByPeriod_period w p c :
  findClassByPeriod w p = Some c -> period c = p.
Proof.
  unfold findClassByPeriod. intros H. apply find_some in H.
  apply String.eqb_eq, H.
Qed.

(** X10. A class is looked up among the classes of today's rotation only:
    what [findClassByPeriod] returns has the period asked for and is in the
    list of the rotation [getABDay] gives, and on a day without rotation
    nothing is found. *)
Theorem findClassByPeriod_of_rotation (w : World) (p : string) :
  (forall c,
      findClassByPeriod w p = Some c ->
      period c = p
      /\ exists sd,
           scheduleData w = Some sd
           /\ ((getABDay w = Some RotA /\ In c (classes_A sd))
               \/ (getABDay w = Some RotB /\ In c (classes_B sd))))
  /\ (getABDay w = None -> findClassByPeriod w p = None).
Proof.
  unfold findClassByPeriod, classesForDay. split.
  - intros c H. apply find_some in H. destruct H as [Hin Hp].
    apply String.eqb_eq in Hp. split; [exact Hp|].
    destruct (getABDay w) as [[|]|], (scheduleData w) as [sd|];
      try (destruct Hin; fail); exists sd; auto.
  - intros ->. reflexivity.
Qed.

(** X11. On a day with a rotation [buildPeriodStructure] has one item for
    each row of today's table, in table order, each with the two instants
    of its row; an item carries class details only when its label begins
    with ['A'] or ['B'], and then those of a class of that period. *)
Theorem buildPeriodStructure_items (w : World) (items : list PeriodItem) :
  buildPeriodStructure w = Periods items ->
  map item_row items = todaySchedule w
  /\ Forall (fun item =>
       item_start item = parseTime w (row_start (item_row item))
       /\ item_end item = parseTime w (row_end (item_row item))
       /\ item_label item = rowLabel w (item_row item)
       /\ forall c, item_info item = Some c ->
            exists l, item_label item = Some l
                      /\ startsWithAorB l = true
                      /\ period c = l) items.
Proof.
  unfold buildPeriodStructure. destruct (getABDay w) as [r|] eqn:Hr; [|discriminate].
  intros [= <-]. split.
  - rewrite map_map. simpl. apply map_id.
  - apply Forall_forall. intros item Hin.
    apply list_elem_of_In, in_map_iff in Hin. destruct Hin as (row & <- & _). simpl.
    repeat split. intros c Hc.
    destruct (rowLabel w row) as [l|]; [|discriminate].
    destruct (startsWithAorB l) eqn:E; [|discriminate].
    exists l. split; [reflexivity|]. split; [exact E|].
    apply (findClassByPeriod_period w l c Hc).
Qed.

Lemma buildPeriodStructure_items_witness :
  exists items,
    buildPeriodStructure (sampleAt 20333 30000000) = Periods items
    /\ map item_row items = schedules_regular sampleData.
Proof.
  eexists. split; [vm_compute; reflexivity|].
  refine (proj1 (buildPeriodStructure_items (sampleAt 20333 30000000) _ _)).
  vm_compute. reflexivity.
Defined.

Lemma findClassByPeriod_of_rotation_witness :
  period (mkClassInfo "A1" "Algebra" "101" "Ada Byron") = "A1".
Proof.
  apply (proj1 (findClassByPeriod_of_rotation (sampleAt 20313 30000000) "A1")).
  vm_compute. reflexivity.
Defined.

(** ** Countdown text *)

Lemma duration_seconds_short n :
  0 <= n < 2592000 ->
  duration_seconds n =
    {| dur_hours := n mod 86400 / 3600;
       dur_minutes := n mod 3600 / 60;
       dur_seconds := n mod 60 |}.
Proof.
  intros H. unfold duration_seconds.
  change msPerMonth with 2628000000. change msPerYear with 31536000000.
  unfold msPerDay, msPerHour, msPerMinute, msPerSecond.
  rewrite (Z.rem_small (n * 1000) 31536000000) by lia.
  rewrite (Z.rem_small (n * 1000) 2628000000) by lia.
  rewrite !Z.rem_mod_nonneg, !Z.quot_div_nonneg
    by (try lia; repeat (apply Z.mod_pos_bound || apply Z.div_pos || apply Z_mod_nonneg_nonneg
                         || apply Z.mod_bound_pos || lia); divmod).
  f_equal; divmod.
Qed.

Lemma humanTime_parts ms :
  0 <= ms / msPerSecond < 2592000 ->
  humanTime (Some ms) =
    let n := ms / msPerSecond in
    let h := n mod 86400 / 3600 in
    let m := n mod 3600 / 60 in
    let s := n mod 60 in
    if 0 <? h then
      string_of_Z h +:+ "h " +:+ string_of_Z m +:+ "m " +:+ string_of_Z s +:+ "s"
    else if 0 <? m then string_of_Z m +:+ "m " +:+ string_of_Z s +:+ "s"
    else string_of_Z s +:+ "s".
Proof.
  intros H. unfold humanTime. rewrite Z.max_r by lia.
  rewrite (duration_seconds_short _ H). reflexivity.
Qed.

(** X12. [humanTime] shows a span by the hours, minutes and seconds of
    its whole seconds [n], leaving out the leading units that are zero:
    seconds alone under a minute, minutes and seconds under an hour, all
    three under a day.  A span under one second, or negative, shows as
    ["0s"], and whole days are dropped from a longer one. *)
Theorem humanTime_text (ms : Z) :
  let n := ms / msPerSecond in
  (n <= 0 -> humanTime (Some ms) = "0s")
  /\ (0 <= n < 60 -> humanTime (Some ms) = string_of_Z n +:+ "s")
  /\ (60 <= n < 3600 ->
      humanTime (Some ms) =
        string_of_Z (n / 60) +:+ "m " +:+ string_of_Z (n mod 60) +:+ "s")
  /\ (3600 <= n < 86400 ->
      humanTime (Some ms) =
        string_of_Z (n / 3600) +:+ "h " +:+ string_of_Z (n mod 3600 / 60)
          +:+ "m " +:+ string_of_Z (n mod 60) +:+ "s")
  /\ (86400 <= n < 2592000 ->
      humanTime (Some ms) = humanTime (Some (n mod 86400 * msPerSecond))).
Proof.
  intros n. split; [|split; [|split; [|split]]].
  - intros H. unfold humanTime. fold n. rewrite Z.max_l by lia. reflexivity.
  - intros H. rewrite humanTime_parts by (fold n; lia). fold n. cbv zeta.
    replace (n mod 86400 / 3600) with 0 by divmod.
    replace (n mod 3600 / 60) with 0 by divmod.
    replace (n mod 60) with n by divmod. reflexivity.
  - intros H. rewrite humanTime_parts by (fold n; lia). fold n. cbv zeta.
    replace (n mod 86400 / 3600) with 0 by divmod.
    replace (n mod 3600 / 60) with (n / 60) by divmod.
    assert ((0 <? n / 60) = true) as -> by (apply Z.ltb_lt; divmod). reflexivity.
  - intros H. rewrite humanTime_parts by (fold n; lia). fold n. cbv zeta.
    replace (n mod 86400 / 3600) with (n / 3600) by divmod.
    assert ((0 <? n / 3600) = true) as -> by (apply Z.ltb_lt; divmod). reflexivity.
  - intros H. rewrite (humanTime_parts ms) by (fold n; lia). fold n.
    assert (n mod 86400 * msPerSecond / msPerSecond = n mod 86400) as Hq
      by (apply Z.div_mul; unfold msPerSecond; lia).
    rewrite (humanTime_parts (n mod 86400 * msPerSecond)) by (rewrite Hq; divmod).
    rewrite Hq. cbv zeta.
    replace (n mod 86400 mod 86400) with (n mod 86400) by divmod.
    replace (n mod 86400 mod 3600) with (n mod 3600) by divmod.
    replace (n mod 86400 mod 60) with (n mod 60) by divmod. reflexivity.
Qed.

Lemma humanTime_text_witness :
  humanTime (Some 3725400) = "1h 2m 5s"
  /\ humanTime (Some 90061000) = humanTime (Some 3661000).
Proof.
  split.
  - rewrite (proj1 (proj2 (proj2 (proj2 (humanTime_text 3725400)))))
      by (vm_compute; split; [discriminate|reflexivity]).
    vm_compute. reflexivity.
  - rewrite (proj2 (proj2 (proj2 (proj2 (humanTime_text 90061000)))))
      by (vm_compute; split; [discriminate|reflexivity]).
    vm_compute. reflexivity.
Defined.

(** ** The period view *)

Arguments humanTime : simpl never.

Lemma renderPeriods_Periods w items :
  buildPeriodStructure w = Periods items ->
  renderPeriods w =
    Some (map (periodView w (getNow w) (getCurrent w) (getNext w)) items).
Proof. intros H. unfold renderPeriods. rewrite H. reflexivity. Qed.

Lemma buildPeriodStructure_item w items item :
  buildPeriodStructure w = Periods items ->
  In item items ->
  item_start item = parseTime w (row_start (item_row item))
  /\ item_end item = parseTime w (row_end (item_row item))
  /\ item_label item = rowLabel w (item_row item).
Proof.
  unfold buildPeriodStructure. destruct (getABDay w); [|discriminate].
  intros [= <-] Hin. apply in_map_iff in Hin. destruct Hin as (row & <- & _).
  simpl. auto.
Qed.

(** X13. While a row is current, the item of that row is shown as active
    with the time left to its end, no item is shown as active unless its
    label is the label of the current row, and no banner for the next class
    is shown. *)
Theorem renderPeriods_current_active (w : World) (row : BellRow)
    (items : list PeriodItem) :
  getCurrent w = Some row ->
  buildPeriodStructure w = Periods items ->
  let view := periodView w (getNow w) (Some row) (getNext w) in
  renderPeriods w = Some (map view items)
  /\ Forall (fun item => pv_banner (view item) = None) items
  /\ Forall (fun item =>
       item_row item = row ->
       exists e,
         item_end item = Some e
         /\ pv_class (view item) = "period active"
         /\ (forall s, item_start item = Some s ->
               pv_remaining (view item)
               = Some (humanTime (Some (e - s - (getNow w - s))) +:+ " left"))) items
  /\ Forall (fun item =>
       pv_class (view item) = "period active" ->
       item_label item = rowLabel w row) items.
Proof.
  intros Hc Hb view.
  split; [rewrite (renderPeriods_Periods w items Hb), Hc; reflexivity|].
  split; [|split]; apply Forall_forall; intros item Hin; apply list_elem_of_In in Hin.
  - unfold view, periodView. destruct (dateGt _ _); [reflexivity|].
    destruct (bool_decide _); reflexivity.
  - intros Hrow.
    destruct (buildPeriodStructure_item w items item Hb Hin) as (Hs & He & Hl).
    rewrite Hrow in *.
    destruct (getCurrent_Some_current w row Hc) as (s & e & Ps & Pe & Hle).
    exists e. split; [congruence|].
    unfold view, periodView. rewrite He, Pe, Hl. simpl.
    rewrite (proj2 (Z.ltb_ge e (getNow w))) by lia.
    rewrite bool_decide_eq_true_2 by reflexivity. simpl.
    split; [reflexivity|]. intros s' Hs'. rewrite Hs'. reflexivity.
  - unfold view, periodView. destruct (dateGt _ _); [discriminate|].
    destruct (bool_decide _) eqn:E; [|discriminate].
    intros _. apply bool_decide_eq_true in E. exact E.
Qed.

(** At 08:00 of Tuesday 2025-09-02 the first period is shown as active. *)
Lemma renderPeriods_current_active_witness :
  exists views,
    renderPeriods (sampleAt 20333 28800000) = Some views
    /\ map pv_class views = ["period active"; "period"; "period"; "period"].
Proof.
  destruct (renderPeriods_current_active (sampleAt 20333 28800000)
              (mkBellRow "07:45" "09:04" (CodeArray ["A1"; "B5"]))
              (match buildPeriodStructure (sampleAt 20333 28800000) with
               | Periods items => items
               | NoSchool => []
               end)) as (H & _).
  - vm_compute. reflexivity.
  - vm_compute. reflexivity.
  - eexists. split; [exact H|]. vm_compute. reflexivity.
Defined.

(** X14. An item is shown as passed exactly when its end is a valid
    instant strictly before [now]; a passed item carries neither the time
    left nor the banner. *)
Theorem periodView_passed (w : World) (now : Z) (current next : option BellRow)
    (item : PeriodItem) :
  (pv_class (periodView w now current next item) = "period passed" <->
     exists e, item_end item = Some e /\ e < now)
  /\ (pv_class (periodView w now current next item) = "period passed" ->
      pv_remaining (periodView w now current next item) = None
      /\ pv_banner (periodView w now current next item) = None).
Proof.
  unfold periodView, dateGt. destruct (item_end item) as [e|].
  - destruct (e <? now) eqn:E.
    + apply Z.ltb_lt in E. simpl. split; [|auto]. split; [eauto|reflexivity].
    + apply Z.ltb_ge in E. split.
      * split.
        -- destruct current as [c|]; [destruct (bool_decide _)|
             destruct next as [n|]; [destruct (bool_decide _)|]]; discriminate.
        -- intros (e' & [= <-] & H). lia.
      * destruct current as [c|]; [destruct (bool_decide _)|
          destruct next as [n|]; [destruct (bool_decide _)|]]; discriminate.
  - split.
    + split.
      * destruct current as [c|]; [destruct (bool_decide _)|
          destruct next as [n|]; [destruct (bool_decide _)|]]; discriminate.
      * intros (e' & H & _). discriminate.
    + destruct current as [c|]; [destruct (bool_decide _)|
        destruct next as [n|]; [destruct (bool_decide _)|]]; discriminate.
Qed.

(** X15. Between periods, when no row is current and a row is next, the
    item of the next row, if it does not end before it starts, carries the
    banner with the time to its start and is not shown as active; and no
    item at all is shown as active. *)
Theorem renderPeriods_next_banner (w : World) (row : BellRow)
    (items : list PeriodItem) :
  getCurrent w = None ->
  getNext w = Some row ->
  buildPeriodStructure w = Periods items ->
  let view := periodView w (getNow w) None (Some row) in
  renderPeriods w = Some (map view items)
  /\ Forall (fun item => pv_class (view item) <> "period active") items
  /\ Forall (fun item =>
       item_row item = row ->
       forall s e,
         item_start item = Some s -> item_end item = Some e -> s <= e ->
         pv_class (view item) = "period"
         /\ pv_banner (view item)
            = Some ("Next class starts in "
                      +:+ humanTime (Some (s - getNow w)))) items.
Proof.
  intros Hc Hn Hb view.
  split; [rewrite (renderPeriods_Periods w items Hb), Hc, Hn; reflexivity|].
  split; apply Forall_forall; intros item Hin; apply list_elem_of_In in Hin.
  - unfold view, periodView. destruct (dateGt _ _); [discriminate|].
    destruct (bool_decide _); discriminate.
  - intros Hrow s e Hs He Hse.
    destruct (buildPeriodStructure_item w items item Hb Hin) as (Hs' & He' & Hl).
    rewrite Hrow in *.
    assert (getNow w < s) as Hlt.
    { unfold getNext in Hn. apply find_some in Hn. destruct Hn as [_ Hn].
      rewrite <- Hs', Hs in Hn. simpl in Hn. apply Z.ltb_lt, Hn. }
    unfold view, periodView. rewrite He, Hs, Hl. simpl.
    rewrite (proj2 (Z.ltb_ge e (getNow w))) by lia.
    rewrite bool_decide_eq_true_2 by reflexivity. simpl.
    split; [reflexivity|]. rewrite Z.max_r by lia. reflexivity.
Qed.

(** At 09:10 of Tuesday 2025-09-02, between the first two periods. *)
Lemma renderPeriods_next_banner_witness :
  exists views,
    renderPeriods (sampleAt 20333 33000000) = Some views
    /\ map pv_banner views = [None; Some "Next class starts in 4m 0s"; None; None].
Proof.
  destruct (renderPeriods_next_banner (sampleAt 20333 33000000)
              (mkBellRow "09:14" "10:33" (CodeArray ["A2"; "B6"]))
              (match buildPeriodStructure (sampleAt 20333 33000000) with
               | Periods items => items
               | NoSchool => []
               end)) as (H & _).
  - vm_compute. reflexivity.
  - vm_compute. reflexivity.
  - vm_compute. reflexivity.
  - eexists. split; [exact H|]. vm_compute. reflexivity.
Defined.

(** ** The events panel *)

(** X16. The events panel shows the no-events message exactly when no
    event is on the day.  Otherwise it shows the events of the day that
    are not titled ['A Day'] or ['B Day'], in the order of
    [getTodaysEvents]; so on a day whose only events are those sentinels
    the panel is left empty, without the message. *)
Theorem renderEvents_skips_sentinels (w : World) :
  (renderEvents w = NoEventsMessage <-> getTodaysEvents w = [])
  /\ (forall rows,
        renderEvents w = EventRows rows ->
        map ev_title rows
        = map summary (List.filter (fun e => negb (isSentinel e)) (getTodaysEvents w))
        /\ Forall (fun row => ev_title row <> Some "A Day"
                              /\ ev_title row <> Some "B Day") rows)
  /\ (getTodaysEvents w <> [] ->
      Forall (fun e => isSentinel e = true) (getTodaysEvents w) ->
      renderEvents w = EventRows []).
Proof.
  unfold renderEvents. split; [|split].
  - destruct (getTodaysEvents w) as [|e l]; simpl; split; intros; congruence.
  - intros rows. destruct (length (getTodaysEvents w) =? 0)%nat; [discriminate|].
    intros [= <-]. rewrite map_map. simpl. split; [reflexivity|].
    apply Forall_forall. intros row Hin.
    apply list_elem_of_In, in_map_iff in Hin. destruct Hin as (e & <- & He).
    apply filter_In in He. destruct He as [_ He]. simpl.
    unfold isSentinel in He. apply negb_true_iff, orb_false_iff in He.
    destruct He as [HA HB].
    apply bool_decide_eq_false in HA. apply bool_decide_eq_false in HB. auto.
  - intros Hne Hall. destruct (getTodaysEvents w) as [|e l] eqn:E; [congruence|].
    simpl length. simpl Nat.eqb. cbv iota. f_equal.
    replace (List.filter (fun e0 => negb (isSentinel e0)) (e :: l)) with (@nil CalEvent);
      [reflexivity|].
    symmetry. clear E Hne. induction Hall as [|x l' Hx _ IH]; simpl; [reflexivity|].
    rewrite Hx. simpl. exact IH.
Qed.

(** On 2025-08-13 with only the rotation feed loaded, the panel is empty. *)
Lemma renderEvents_skips_sentinels_witness :
  renderEvents sentinelOnlyWorld = EventRows [].
Proof.
  apply (proj2 (proj2 (renderEvents_skips_sentinels sentinelOnlyWorld))).
  - vm_compute. discriminate.
  - vm_compute. repeat constructor.
Defined.

(** ** More on the importer *)

Lemma importEvent_wellFormed v st :
  spec_wellFormed v ->
  exists e abd,
    importEvent v st = (Normal tt, {| abDays := abd; allEvents := allEvents st ++ [e] |})
    /\ summary e = ve_summary v
    /\ Some (startDate e) = ve_dtstart v
    /\ isAllDay e = isDate (startDate e)
    /\ location e = default "" (ve_location v)
    /\ (forall iso, toISOString (toJSDate (startDate e)) = Some iso ->
          (ve_summary v = Some "A Day" -> abd = <[slice_0_10 iso := RotA]> (abDays st))
          /\ (ve_summary v = Some "B Day" -> abd = <[slice_0_10 iso := RotB]> (abDays st)))
    /\ (ve_summary v <> Some "A Day" -> ve_summary v <> Some "B Day" -> abd = abDays st).
Proof.
  intros (s & Hs & Hrange).
  assert (exists iso, toISOString (toJSDate s) = Some iso) as [iso Hiso].
  { unfold toISOString. destruct Hrange as [H1 H2].
    apply Z.leb_le in H1, H2. rewrite H1, H2. cbn [andb].
    destruct (civil_from_days (toJSDate s / msPerDay)) as [[y m] dd]. eauto. }
  assert (exists e0, Event_endDate v = Normal e0) as [e0 He0].
  { unfold Event_endDate. rewrite Hs. destruct (ve_dtend v); eauto. }
  unfold importEvent, bind, liftC, pushEvent, setABDay, ret, deref.
  rewrite He0, Hs. simpl.
  destruct (bool_decide (ve_summary v = Some "A Day")) eqn:EA;
    [apply bool_decide_eq_true in EA | apply bool_decide_eq_false in EA];
    (destruct (bool_decide (ve_summary v = Some "B Day")) eqn:EB;
     [apply bool_decide_eq_true in EB | apply bool_decide_eq_false in EB]);
    simpl; rewrite ?Hiso; simpl; eexists _, _; (split; [reflexivity|]); simpl;
    repeat split; try (destruct (isDate s); reflexivity);
    try congruence; try tauto;
    try (intros iso' Hiso'; rewrite Hiso in Hiso'; injection Hiso' as <-;
         split; intros; congruence).
Qed.

Lemma forEach_wellFormed vs :
  Forall spec_wellFormed vs ->
  forall st, exists st',
    forEach vs importEvent st = (Normal tt, st')
    /\ exists evs,
         allEvents st' = allEvents st ++ evs
         /\ map summary evs = map ve_summary vs
         /\ map (fun e => Some (startDate e)) evs = map ve_dtstart vs
         /\ map location evs = map (fun v => default "" (ve_location v)) vs
         /\ Forall (fun e => isAllDay e = isDate (startDate e)) evs.
Proof.
  induction 1 as [|v vs Hv _ IH]; intros st.
  - exists st. split; [reflexivity|]. exists []. rewrite app_nil_r.
    repeat split; constructor.
  - destruct (importEvent_wellFormed v st Hv) as (e & abd & He & H1 & H2 & H3 & H4 & _).
    simpl. unfold bind at 1. rewrite He.
    destruct (IH {| abDays := abd; allEvents := allEvents st ++ [e] |})
      as (st' & Hf & evs & Ha & Hsum & Hst & Hloc & Hall).
    exists st'. split; [exact Hf|]. exists (e :: evs). simpl in Ha.
    rewrite Ha, <- app_assoc. simpl.
    rewrite H1, H2, H4, Hsum, Hst, Hloc. repeat split. constructor; assumption.
Qed.



(** The rotation a sentinel title stands for. *)
Lemma importEvent_abDays v st k r :
  abDays (snd (importEvent v st)) !! k = Some r ->
  abDays st !! k = Some r
  \/ exists s iso,
       ve_dtstart v = Some s
       /\ toISOString (toJSDate s) = Some iso
       /\ k = slice_0_10 iso
       /\ ve_summary v = Some (match r with RotA => "A Day" | RotB => "B Day" end).
Proof.
  unfold importEvent, bind, liftC, pushEvent, setABDay, ret, deref.
  destruct (Event_endDate v) as [e0|]; simpl; [|auto].
  destruct (ve_dtstart v) as [s|]; simpl; [|auto].
  destruct (bool_decide (ve_summary v = Some "A Day")) eqn:EA;
    [apply bool_decide_eq_true in EA | apply bool_decide_eq_false in EA];
    (destruct (bool_decide (ve_summary v = Some "B Day")) eqn:EB;
     [apply bool_decide_eq_true in EB | apply bool_decide_eq_false in EB]);
    simpl; auto;
    (destruct (toISOString (toJSDate s)) as [iso|] eqn:Hiso; simpl; [|auto]);
    (destruct (decide (slice_0_10 iso = k)) as [<-|Hne];
     [rewrite lookup_insert_eq; intros [= <-]; right; exists s, iso; repeat split; auto
     |rewrite lookup_insert_ne by exact Hne; auto]).
Qed.

Lemma forEach_abDays vs : forall st k r,
  abDays (snd (forEach vs importEvent st)) !! k = Some r ->
  abDays st !! k = Some r
  \/ exists v s iso,
       In v vs
       /\ ve_dtstart v = Some s
       /\ toISOString (toJSDate s) = Some iso
       /\ k = slice_0_10 iso
       /\ ve_summary v = Some (match r with RotA => "A Day" | RotB => "B Day" end).
Proof.
  induction vs as [|v vs IH]; intros st k r; simpl; [auto|].
  unfold bind at 1. pose proof (importEvent_abDays v st k r) as Hv.
  destruct (importEvent v st) as [[[]|] st1]; simpl in *.
  - intros H. destruct (IH st1 k r H) as [H1|(v' & s & iso & Hin & Hrest)].
    + destruct (Hv H1) as [H0|(s & iso & Hrest)]; [auto|].
      right. exists v, s, iso. auto.
    + right. exists v', s, iso. auto.
  - intros H. destruct (Hv H) as [H0|(s & iso & Hrest)]; [auto|].
    right. exists v, s, iso. auto.
Qed.

(** X18. Every entry of the override map comes from a sentinel event of
    the feed: its key is the first ten characters of the ISO text of the
    start of a component titled ['A Day'] for an ['A'] entry and ['B Day']
    for a ['B'] entry.  A feed without such titles gives an empty map. *)
Theorem parseICSCalendar_overrides_from_sentinels (vevents : list VEvent)
    (abd : gmap string rotation) (evs : list CalEvent) :
  parseICSCalendar (Normal vevents) = Normal (abd, evs) ->
  (forall k r,
      abd !! k = Some r ->
      exists v s iso,
        In v vevents
        /\ ve_dtstart v = Some s
        /\ toISOString (toJSDate s) = Some iso
        /\ k = slice_0_10 iso
        /\ ve_summary v = Some (match r with RotA => "A Day" | RotB => "B Day" end))
  /\ (Forall (fun v => ve_summary v <> Some "A Day" /\ ve_summary v <> Some "B Day") vevents ->
      abd = ∅).
Proof.
  rewrite parseICSCalendar_Normal. simpl. intros [= <- <-].
  assert (forall k r,
             abDays (snd (forEach vevents importEvent {| abDays := ∅; allEvents := [] |}))
               !! k = Some r ->
             exists v s iso,
               In v vevents
               /\ ve_dtstart v = Some s
               /\ toISOString (toJSDate s) = Some iso
               /\ k = slice_0_10 iso
               /\ ve_summary v = Some (match r with RotA => "A Day" | RotB => "B Day" end))
    as HK.
  { intros k r H. destruct (forEach_abDays vevents _ k r H) as [H0|H1]; [|exact H1].
    simpl in H0. rewrite lookup_empty in H0. discriminate. }
  split; [exact HK|].
  intros Hno. apply map_eq. intros k. rewrite lookup_empty.
  destruct (_ !! k) as [r|] eqn:E; [|reflexivity].
  destruct (HK k r E) as (v & s & iso & Hin & _ & _ & _ & Hsum).
  rewrite Forall_forall in Hno. apply list_elem_of_In in Hin.
  destruct (Hno v Hin) as [HA HB]. destruct r; congruence.
Qed.

Lemma parseICSCalendar_overrides_from_sentinels_witness :
  exists abd evs,
    parseICSCalendar
      (Normal [mkVEvent (Some "Assembly") (Some (mkICALTime 1755093600 false))
                 (Some (mkICALTime 1755097200 false)) None (Some "Gym")])
    = Normal (abd, evs)
    /\ abd = ∅.
Proof.
  eexists _, _. split; [vm_compute; reflexivity|].
  refine (proj2 (parseICSCalendar_overrides_from_sentinels
                   [mkVEvent (Some "Assembly") (Some (mkICALTime 1755093600 false))
                      (Some (mkICALTime 1755097200 false)) None (Some "Gym")] _ _ _) _).
  - vm_compute. reflexivity.
  - repeat constructor; discriminate.
Defined.

Lemma toISOString_Some_range d iso :
  toISOString d = Some iso -> - maxTimeValue <= d <= maxTimeValue.
Proof.
  unfold toISOString.
  destruct (- maxTimeValue <=? d) eqn:E1; [|discriminate].
  destruct (d <=? maxTimeValue) eqn:E2; [|discriminate].
  intros _. apply Z.leb_le in E1, E2. lia.
Qed.

Lemma forEach_last_sentinel (vevents : list VEvent) (v : VEvent)
    (s : ICALTime) (iso : string) :
  Forall spec_wellFormed vevents ->
  ve_dtstart v = Some s ->
  toISOString (toJSDate s) = Some iso ->
  ve_summary v = Some "A Day" \/ ve_summary v = Some "B Day" ->
  exists abd evs,
    parseICSCalendar (Normal (vevents ++ [v])) = Normal (abd, evs)
    /\ abd !! slice_0_10 iso
       = Some (if bool_decide (ve_summary v = Some "A Day") then RotA else RotB).
Proof.
  intros Hwf Hs Hiso Hsum. rewrite parseICSCalendar_Normal, forEach_app.
  destruct (forEach_wellFormed vevents Hwf {| abDays := ∅; allEvents := [] |})
    as (st' & Hf & _).
  rewrite Hf. simpl. unfold bind.
  assert (spec_wellFormed v) as Hv.
  { exists s. split; [exact Hs|]. apply (toISOString_Some_range _ _ Hiso). }
  destruct (importEvent_wellFormed v st' Hv) as (e & abd & He & _ & Hst & _ & _ & Hab & _).
  rewrite He. simpl. eexists _, _. split; [reflexivity|].
  rewrite Hs in Hst. injection Hst as Hst. rewrite Hst in Hab.
  destruct (Hab iso Hiso) as [HA HB].
  destruct Hsum as [E|E].
  - rewrite (HA E), bool_decide_eq_true_2 by exact E. apply lookup_insert_eq.
  - rewrite (HB E), bool_decide_eq_false_2 by congruence. apply lookup_insert_eq.
Qed.


(** X19. When two sentinel events fall on the same key the later one in
    the feed decides: after a feed of well-formed components, the entry
    under the key of the last component, a sentinel, is the rotation of
    that component, whatever was filed under the key before. *)
Theorem parseICSCalendar_last_sentinel_wins (vevents : list VEvent) (v : VEvent)
    (s : ICALTime) (iso : string) :
  Forall spec_wellFormed vevents ->
  ve_dtstart v = Some s ->
  toISOString (toJSDate s) = Some iso ->
  ve_summary v = Some "A Day" \/ ve_summary v = Some "B Day" ->
  exists abd evs,
    parseICSCalendar (Normal (vevents ++ [v])) = Normal (abd, evs)
    /\ abd !! slice_0_10 iso
       = Some (if bool_decide (ve_summary v = Some "A Day") then RotA else RotB).
Proof. apply forEach_last_sentinel. Qed.

(** A feed that marks 2025-08-13 as an A day and then as a B day. *)
Lemma parseICSCalendar_last_sentinel_wins_witness :
  exists abd evs,
    parseICSCalendar
      (Normal ([allDayEvent denverOffset "A Day" day_2025_08_13]
                 ++ [allDayEvent denverOffset "B Day" day_2025_08_13]))
    = Normal (abd, evs)
    /\ abd !! "2025-08-13" = Some RotB.
Proof.
  destruct (parseICSCalendar_last_sentinel_wins
              [allDayEvent denverOffset "A Day" day_2025_08_13]
              (allDayEvent denverOffset "B Day" day_2025_08_13)
              (mkICALTime 1755064800 true) "2025-08-13T06:00:00.000Z")
    as (abd & evs & H1 & H2).
  - repeat constructor. eexists. split; [reflexivity|]. vm_compute. split; discriminate.
  - vm_compute. reflexivity.
  - vm_compute. reflexivity.
  - right. reflexivity.
  - exists abd, evs. split; [exact H1|exact H2].
Defined.





(** ** Time of day is all the matcher looks at *)

Lemma isCurrentRow_timeOfDay w row :
  isCurrentRow w row =
    match map Number (split ":" (row_start row)), map Number (split ":" (row_end row)) with
    | Some h :: Some m :: _, Some h' :: Some m' :: _ =>
        (h * msPerHour + m * msPerMinute <=? timeOfDay (zoneOffset w) (getNow w))
        && (timeOfDay (zoneOffset w) (getNow w) <=? h' * msPerHour + m' * msPerMinute)
    | _, _ => false
    end.
Proof.
  unfold isCurrentRow, parseTime, dateGe, dateLe.
  destruct (map Number (split ":" (row_start row))) as [|[h|] [|[m|] l]];
    try reflexivity;
    destruct (map Number (split ":" (row_end row))) as [|[h'|] [|[m'|] l']];
    try reflexivity; try apply andb_false_r.
  rewrite !setHours_eq.
  set (now := getNow w). set (tod := timeOfDay (zoneOffset w) now).
  f_equal.
  - destruct (Z.leb_spec (now - tod + h * msPerHour + m * msPerMinute) now),
      (Z.leb_spec (h * msPerHour + m * msPerMinute) tod); try reflexivity; lia.
  - destruct (Z.leb_spec now (now - tod + h' * msPerHour + m' * msPerMinute)),
      (Z.leb_spec tod (h' * msPerHour + m' * msPerMinute)); try reflexivity; lia.
Qed.

Lemma find_ext_all {A : Type} (f g : A -> bool) (l : list A) :
  (forall x, f x = g x) -> List.find f l = List.find g l.
Proof.
  intros H. induction l as [|x l IH]; simpl; [reflexivity|].
  rewrite H, IH. reflexivity.
Qed.

(** X20. The current row depends on the instant only through its local
    time of day: two worlds whose instants have the same time of day and
    whose tables of the day are the same have the same current row,
    whatever their dates. *)
Theorem getCurrent_same_time_of_day (w w' : World) :
  timeOfDay (zoneOffset w') (getNow w') = timeOfDay (zoneOffset w) (getNow w) ->
  todaySchedule w' = todaySchedule w ->
  getCurrent w' = getCurrent w.
Proof.
  intros Ht Hs. unfold getCurrent. rewrite Hs. apply find_ext_all.
  intros row. rewrite !isCurrentRow_timeOfDay, Ht. reflexivity.
Qed.

(** Tuesday 2025-09-02 and Thursday 2025-09-04, both at 08:00. *)
Lemma getCurrent_same_time_of_day_witness :
  getCurrent (sampleAt 20335 28800000) = getCurrent (sampleAt 20333 28800000).
Proof.
  apply getCurrent_same_time_of_day; vm_compute; reflexivity.
Defined.

Lemma timeOfDay_setHours tz d h m :
  timeOfDay tz (setHours tz d h m) = (h * msPerHour + m * msPerMinute) mod msPerDay.
Proof.
  unfold timeOfDay, localTime, setHours, startOfDay.
  replace (localDay tz d * msPerDay - tz + h * msPerHour + m * msPerMinute + tz)
    with (h * msPerHour + m * msPerMinute + localDay tz d * msPerDay) by lia.
  apply Z.mod_add. unfold msPerDay. lia.
Qed.

Lemma periodAt_find w date h m sched :
  List.find (fun r =>
      dateGe (setHours (zoneOffset w) date h m)
        (parseTime (atInstant w (setHours (zoneOffset w) date h m)) (row_start r))
      && dateLe (setHours (zoneOffset w) date h m)
           (parseTime (atInstant w (setHours (zoneOffset w) date h m)) (row_end r))) sched
  = List.find (isCurrentRow (atInstant w (setHours (zoneOffset w) date h m))) sched.
Proof. apply find_ext_all. intros r. reflexivity. Qed.

(** X21. The check helper [periodAt] does not look at its date: for a
    given time text and table it returns the same label on every date, the
    first element of the code of the row that is current at that time of
    day. *)
Theorem periodAt_ignores_date (w : World) (date date' : Z) (timeHM : string)
    (wed : bool) :
  periodAt w date timeHM wed = periodAt w date' timeHM wed.
Proof.
  unfold periodAt. destruct (scheduleData w) as [sd|]; [|reflexivity].
  destruct (map Number (split ":" timeHM)) as [|[h|] [|[m|] l]]; try reflexivity.
  rewrite !periodAt_find.
  rewrite (find_ext_all
             (isCurrentRow (atInstant w (setHours (zoneOffset w) date h m)))
             (isCurrentRow (atInstant w (setHours (zoneOffset w) date' h m)))).
  - reflexivity.
  - intros row. rewrite !isCurrentRow_timeOfDay.
    change (zoneOffset (atInstant w (setHours (zoneOffset w) date h m)))
      with (zoneOffset w).
    change (zoneOffset (atInstant w (setHours (zoneOffset w) date' h m)))
      with (zoneOffset w).
    change (getNow (atInstant w (setHours (zoneOffset w) date h m)))
      with (setHours (zoneOffset w) date h m).
    change (getNow (atInstant w (setHours (zoneOffset w) date' h m)))
      with (setHours (zoneOffset w) date' h m).
    rewrite !timeOfDay_setHours. reflexivity.
Qed.

Lemma periodAt_ignores_date_witness :
  periodAt sampleWorld 1756771200000 "09:04" false = Normal (Some (Some "A1"))
  /\ periodAt sampleWorld 0 "09:04" false = Normal (Some (Some "A1")).
Proof.
  split; [vm_compute; reflexivity|].
  rewrite (periodAt_ignores_date sampleWorld 0 1756771200000). vm_compute. reflexivity.
Defined.

(** ** The days of an event *)

Lemma lt_startOfDay_iff tz a now :
  a < startOfDay tz now <-> localDay tz a < localDay tz now.
Proof.
  pose proof (localTime_split tz a) as S. pose proof (timeOfDay_range tz a) as R.
  unfold startOfDay, localTime, msPerDay in *. lia.
Qed.

Lemma startOfDay_lt_iff tz a now :
  startOfDay tz now < a <->
  localDay tz now < localDay tz a
  \/ (localDay tz now = localDay tz a /\ 0 < timeOfDay tz a).
Proof.
  pose proof (localTime_split tz a) as S. pose proof (timeOfDay_range tz a) as R.
  unfold startOfDay, localTime, msPerDay in *. lia.
Qed.

(** X22. An event is among the events of a day exactly when the day is
    the local date of its start, or a later date up to the local date of
    its end, the date of the end counting only when the event ends after
    midnight.  So an all-day event that runs from one local midnight to
    the next is an event of its own day only. *)
Theorem getTodaysEvents_days (w : World) (event : CalEvent) :
  (In event (getTodaysEvents w) <->
     In event (allCalendarEvents w)
     /\ (localDay (zoneOffset w) (toJSDate (startDate event))
         = localDay (zoneOffset w) (getNow w)
         \/ (localDay (zoneOffset w) (toJSDate (startDate event))
             < localDay (zoneOffset w) (getNow w)
             /\ (localDay (zoneOffset w) (getNow w)
                 < localDay (zoneOffset w) (toJSDate (endDate event))
                 \/ (localDay (zoneOffset w) (getNow w)
                     = localDay (zoneOffset w) (toJSDate (endDate event))
                     /\ 0 < timeOfDay (zoneOffset w) (toJSDate (endDate event)))))))
  /\ (timeOfDay (zoneOffset w) (toJSDate (startDate event)) = 0 ->
      toJSDate (endDate event) = toJSDate (startDate event) + msPerDay ->
      (In event (getTodaysEvents w) <->
         In event (allCalendarEvents w)
         /\ localDay (zoneOffset w) (toJSDate (startDate event))
            = localDay (zoneOffset w) (getNow w))).
Proof.
  assert (In event (getTodaysEvents w) <->
          In event (allCalendarEvents w)
          /\ spec_eventOnDay (zoneOffset w) (getNow w) event) as HI.
  { rewrite <- !list_elem_of_In. rewrite (getTodaysEvents_Permutation w).
    rewrite !list_elem_of_In, filter_In, isTodaysEvent_spec. tauto. }
  unfold spec_eventOnDay in HI. rewrite lt_startOfDay_iff, startOfDay_lt_iff in HI.
  split; [exact HI|].
  intros Hmid Hend. rewrite HI. rewrite Hend.
  replace (toJSDate (startDate event) + msPerDay)
    with (toJSDate (startDate event) + 1 * msPerDay) by lia.
  rewrite localDay_add_days, timeOfDay_add_days, Hmid. split.
  - intros [Hin [H|H]]; [auto|lia].
  - intros [Hin H]. auto.
Qed.

(** The A-day sentinel of 2025-08-13 is no event of 2025-08-14. *)
Lemma getTodaysEvents_days_witness :
  ~ In (mkCalEvent (Some "A Day") (mkICALTime 1755064800 true)
          (mkICALTime 1755151200 true) "" true)
       (getTodaysEvents (atInstant sentinelOnlyWorld
                           (localInstant denverOffset (day_2025_08_13 + 1) 32400000))).
Proof.
  intros H.
  apply (proj2 (getTodaysEvents_days _ _)) in H.
  - destruct H as [_ H]. vm_compute in H. discriminate H.
  - vm_compute. reflexivity.
  - vm_compute. reflexivity.
Defined.

(** X23. Events that start in the same second keep the order they have in
    the imported list: sorting moves no event past another with the same
    start. *)
Theorem getTodaysEvents_stable (w : World) (second : Z) :
  List.filter (fun e => unixTime (startDate e) =? second) (getTodaysEvents w)
  = List.filter (fun e => unixTime (startDate e) =? second)
      (List.filter (isTodaysEvent (zoneOffset w) (startOfDay (zoneOffset w) (getNow w)))
         (allCalendarEvents w)).
Proof.
  unfold getTodaysEvents.
  generalize (List.filter (isTodaysEvent (zoneOffset w)
                (startOfDay (zoneOffset w) (getNow w))) (allCalendarEvents w)).
  intros l. induction l as [|x l IH]; [reflexivity|].
  simpl. rewrite <- IH. generalize (sortBy compareStart l). clear IH l.
  intros l. induction l as [|y l IH]; simpl; [reflexivity|].
  unfold compareStart at 1. rewrite !unix_toJSDate.
  destruct (unixTime (startDate x) - unixTime (startDate y) <=? 0) eqn:E.
  - reflexivity.
  - apply Z.leb_gt in E. simpl. rewrite IH.
    destruct (unixTime (startDate x) =? second) eqn:Ex.
    + apply Z.eqb_eq in Ex.
      rewrite (proj2 (Z.eqb_neq (unixTime (startDate y)) second)) by lia. reflexivity.
    + destruct (unixTime (startDate y) =? second); reflexivity.
Qed.

(** ** Loading *)



(** ** A sentinel that the classifier finds *)

Lemma civil_from_days_bounds days :
  let '(y, m, d) := civil_from_days days in
  1 <= m <= 12 /\ 1 <= d <= 31
  /\ (0 <= days <= lastCheckedDay -> 1970 <= y <= 2099).
Proof.
  unfold civil_from_days, lastCheckedDay.
  set (z := days + 719468). set (era := z / 146097). set (doe := z - era * 146097).
  set (yoe := (doe - doe / 1460 + doe / 36524 - doe / 146096) / 365).
  set (doy := doe - (365 * yoe + yoe / 4 - yoe / 100)).
  set (mp := (5 * doy + 2) / 153).
  assert (0 <= doe <= 146096) as Hdoe by (subst doe era; divmod).
  assert (0 <= yoe <= 399 /\ 0 <= doy <= 365) as [Hyoe Hdoy]
    by (subst doy yoe; divmod).
  assert (0 <= mp <= 11) as Hmp by (subst mp; divmod).
  split; [destruct (mp <? 10) eqn:E; [apply Z.ltb_lt in E|apply Z.ltb_ge in E]; lia|].
  split; [subst mp; divmod|].
  intros Hd.
  destruct (mp <? 10) eqn:E; [apply Z.ltb_lt in E|apply Z.ltb_ge in E];
    (destruct (_ <=? 2) eqn:E2; [apply Z.leb_le in E2|apply Z.leb_gt in E2]);
    subst mp doy yoe doe era z; divmod.
Qed.

Lemma pad2_length_table :
  forallb (fun n => (String.length (padStart0 2 (string_of_Z n)) =? 2)%nat)
    (seqZ 1 31) = true.
Proof. vm_compute. reflexivity. Qed.

Lemma pad4_length_table :
  forallb (fun y => (String.length (padStart0 4 (string_of_Z y)) =? 4)%nat)
    (seqZ 1970 130) = true.
Proof. vm_compute. reflexivity. Qed.

Lemma pad2_length n :
  1 <= n <= 31 -> String.length (padStart0 2 (string_of_Z n)) = 2%nat.
Proof.
  intros H. pose proof pad2_length_table as T. rewrite forallb_forall in T.
  apply Nat.eqb_eq, T, list_elem_of_In, elem_of_seqZ. lia.
Qed.

Lemma pad4_length y :
  1970 <= y <= 2099 -> String.length (padStart0 4 (string_of_Z y)) = 4%nat.
Proof.
  intros H. pose proof pad4_length_table as T. rewrite forallb_forall in T.
  apply Nat.eqb_eq, T, list_elem_of_In, elem_of_seqZ. lia.
Qed.

Lemma slice_date a b c rest :
  String.length a = 4%nat -> String.length b = 2%nat -> String.length c = 2%nat ->
  slice_0_10 (a +:+ "-" +:+ b +:+ "-" +:+ c +:+ rest) = a +:+ "-" +:+ b +:+ "-" +:+ c.
Proof.
  intros Ha Hb Hc.
  destruct a as [|a1 [|a2 [|a3 [|a4 [|a5 a]]]]]; try discriminate.
  destruct b as [|b1 [|b2 [|b3 b]]]; try discriminate.
  destruct c as [|c1 [|c2 [|c3 c]]]; try discriminate.
  unfold slice_0_10. simpl. destruct rest; reflexivity.
Qed.

Lemma slice_toISOString d iso :
  0 <= d / msPerDay <= lastCheckedDay ->
  toISOString d = Some iso ->
  slice_0_10 iso = format_YYYY_MM_DD (d / msPerDay).
Proof.
  intros Hd. pose proof (civil_from_days_bounds (d / msPerDay)) as HB.
  unfold toISOString, format_YYYY_MM_DD in *.
  destruct ((- maxTimeValue <=? d) && (d <=? maxTimeValue)); [|discriminate].
  destruct (civil_from_days (d / msPerDay)) as [[y m] dd].
  destruct HB as (Hm & Hdd & Hy). specialize (Hy Hd).
  intros [= <-]. unfold isoYear.
  rewrite (proj2 (Z.leb_le 0 y)), (proj2 (Z.leb_le y 9999)) by lia. simpl.
  apply slice_date; [apply pad4_length, Hy|apply pad2_length; lia|apply pad2_length, Hdd].
Qed.

(** X25. In a browser whose zone is at or behind UTC, by less than a day,
    an all-day sentinel is filed under its own calendar date and the
    classifier finds it: after a feed of well-formed components that ends
    with an ['A Day'] or ['B Day'] event starting at the local midnight of
    a date from 1970 to 2099, every school-day instant of that date has the
    rotation of that event. *)
Theorem sentinel_found_behind_UTC (w : World) (vevents : list VEvent) (v : VEvent)
    (s : ICALTime) (day now : Z) :
  - msPerDay < zoneOffset w <= 0 ->
  0 <= day <= lastCheckedDay ->
  Forall spec_wellFormed vevents ->
  ve_dtstart v = Some s ->
  toJSDate s = localInstant (zoneOffset w) day 0 ->
  ve_summary v = Some "A Day" \/ ve_summary v = Some "B Day" ->
  localDay (zoneOffset w) now = day ->
  isSchoolDay (atInstant (loadCalendar w (Normal (vevents ++ [v]))) now) now = true ->
  getABDay (atInstant (loadCalendar w (Normal (vevents ++ [v]))) now)
  = Some (if bool_decide (ve_summary v = Some "A Day") then RotA else RotB).
Proof.
  intros Htz Hday Hwf Hs Hmid Hsum Hnow Hschool.
  assert (- maxTimeValue <= toJSDate s <= maxTimeValue) as Hrange.
  { rewrite Hmid. unfold localInstant, lastCheckedDay, maxTimeValue, msPerDay in *. lia. }
  assert (exists iso, toISOString (toJSDate s) = Some iso) as [iso Hiso].
  { unfold toISOString. destruct Hrange as [H1 H2].
    apply Z.leb_le in H1, H2. rewrite H1, H2. cbn [andb].
    destruct (civil_from_days (toJSDate s / msPerDay)) as [[y m] dd]. eauto. }
  assert (toJSDate s / msPerDay = day) as Hutc.
  { rewrite Hmid. unfold localInstant, msPerDay in *. divmod. }
  assert (slice_0_10 iso = format_YYYY_MM_DD day) as Hkey.
  { rewrite <- Hutc. apply slice_toISOString; [rewrite Hutc; exact Hday|exact Hiso]. }
  destruct (forEach_last_sentinel vevents v s iso Hwf Hs Hiso Hsum)
    as (abd & evs & Hparse & Hlook).
  revert Hschool. unfold loadCalendar. rewrite Hparse. intros Hschool.
  apply getABDay_of_override; [exact Hschool|].
  change (abd !! ymd (zoneOffset w) now
          = Some (if bool_decide (ve_summary v = Some "A Day") then RotA else RotB)).
  unfold ymd. rewrite Hnow, <- Hkey. exact Hlook.
Qed.

(** The rotation feed loaded in Denver: 2025-08-14 is the B day the feed
    says, at nine in the morning. *)
Lemma sentinel_found_behind_UTC_witness :
  getABDay (atInstant (loadCalendar sampleWorld
                         (Normal ([allDayEvent denverOffset "A Day" day_2025_08_13]
                                    ++ [allDayEvent denverOffset "B Day" (day_2025_08_13 + 1)])))
              (localInstant denverOffset (day_2025_08_13 + 1) 32400000))
  = Some RotB.
Proof.
  apply (sentinel_found_behind_UTC sampleWorld
           [allDayEvent denverOffset "A Day" day_2025_08_13]
           (allDayEvent denverOffset "B Day" (day_2025_08_13 + 1))
           (mkICALTime 1755151200 true) (day_2025_08_13 + 1)).
  - vm_compute. split; [reflexivity|discriminate].
  - vm_compute. split; discriminate.
  - repeat constructor. eexists. split; [reflexivity|]. vm_compute. split; discriminate.
  - vm_compute. reflexivity.
  - vm_compute. reflexivity.
  - right. reflexivity.
  - vm_compute. reflexivity.
  - vm_compute. reflexivity.
Defined.
